(** * KinectAzureModule: the Azure Kinect convenience wrapper

    A shallow embedding of [pykinect_module.py].  The module is a thin layer
    over the [pykinect_azure] package: it turns label strings into SDK enum
    values, keeps the device handle, and forwards capture and calibration
    calls.  The vendor package is not part of the module, so it enters the
    development as an interface ([PyKinect]) whose operations act on an
    abstract library/hardware state and may raise.  The Python object [self],
    the module-level object [pykinect.default_configuration] it aliases, the
    standard output and the sequence of SDK calls issued so far make up the
    heap that every method transforms. *)

From Stdlib Require Import ZArith String List.
From stdpp Require Import base option strings gmap list.

Local Open Scope string_scope.
Local Open Scope Z_scope.
Local Open Scope list_scope.

(** ** Constants of the vendor SDK *)

(** [k4a_color_resolution_t]: the values behind
    [pykinect.K4A_COLOR_RESOLUTION_*]. *)
Inductive k4a_color_resolution_t : Set :=
  | K4A_COLOR_RESOLUTION_OFF
  | K4A_COLOR_RESOLUTION_720P
  | K4A_COLOR_RESOLUTION_1080P
  | K4A_COLOR_RESOLUTION_1440P
  | K4A_COLOR_RESOLUTION_1536P
  | K4A_COLOR_RESOLUTION_2160P
  | K4A_COLOR_RESOLUTION_3072P.

(** [k4a_depth_mode_t]: the values behind [pykinect.K4A_DEPTH_MODE_*]. *)
Inductive k4a_depth_mode_t : Set :=
  | K4A_DEPTH_MODE_OFF
  | K4A_DEPTH_MODE_NFOV_2X2BINNED
  | K4A_DEPTH_MODE_NFOV_UNBINNED
  | K4A_DEPTH_MODE_WFOV_2X2BINNED
  | K4A_DEPTH_MODE_WFOV_UNBINNED
  | K4A_DEPTH_MODE_PASSIVE_IR.

(** The native configuration record ([pykinect.Configuration]).  The wrapper
    writes two of its fields; whatever else the SDK keeps in it is
    [other_settings]. *)
Module Config.
Record t (R : Type) : Type := mk {
  color_resolution : k4a_color_resolution_t;
  depth_mode : k4a_depth_mode_t;
  other_settings : R
}.
Arguments mk {R} _ _ _.
Arguments color_resolution {R} _.
Arguments depth_mode {R} _.
Arguments other_settings {R} _.
End Config.
Abbreviation Configuration := Config.t.

(** ** The vendor package as an interface

    Every operation the wrapper calls on [pykinect_azure], on a device, or on
    a capture.  Each one reads and writes the library/hardware state [W] and
    either returns or raises an [SdkExn]. *)
Class PyKinect : Type := {
  W : Type;
  SdkExn : Type;
  ConfigRest : Type;
  Device : Type;
  Capture : Type;
  Image : Type;
  Num : Type;
  (* pykinect.initialize_libraries() *)
  initialize_libraries : W -> (SdkExn + unit) * W;
  (* pykinect.start_device(device_index=..., config=...) *)
  sdk_start_device : Z -> Configuration ConfigRest -> W -> (SdkExn + Device) * W;
  (* device.calibration.get_matrix(camera) *)
  calibration_get_matrix : Device -> Z -> W -> (SdkExn + list (list Num)) * W;
  (* device.calibration.get_distortion() *)
  calibration_get_distortion : Device -> W -> (SdkExn + list Num) * W;
  (* device.update() *)
  Device_update : Device -> W -> (SdkExn + Capture) * W;
  (* capture.get_color_image() *)
  get_color_image : Capture -> W -> (SdkExn + bool * Image) * W;
  (* capture.get_transformed_depth_image() *)
  get_transformed_depth_image : Capture -> W -> (SdkExn + bool * Image) * W;
  (* device.close() *)
  Device_close : Device -> W -> (SdkExn + unit) * W
}.

(** The one configuration object the wrapper ever holds a reference to:
    [start_device] stores the module-level [pykinect.default_configuration]
    itself in [self.device_config], not a copy. *)
Inductive ConfigRef : Set := default_configuration_ref.

Section Wrapper.
Context {K : PyKinect}.

(** What the Python code can raise. *)
Inductive Exn : Type :=
  | AttributeError (attr : string)   (* self.<attr> read before it was set *)
  | KeyError (key : string)          (* dict subscript on a missing key *)
  | SdkError (e : SdkExn).           (* raised inside pykinect_azure *)

Inductive Outcome (A : Type) : Type :=
  | Returns (a : A)
  | Raises (e : Exn).
Arguments Returns {A} _.
Arguments Raises {A} _.

(** The SDK calls, in the order issued (ghost state). *)
Inductive Call : Type :=
  | CallInitializeLibraries
  | CallStartDevice (device_index : Z) (config : Configuration ConfigRest)
  | CallGetMatrix (d : Device) (camera : Z)
  | CallGetDistortion (d : Device)
  | CallUpdate (d : Device)
  | CallGetColorImage (c : Capture)
  | CallGetTransformedDepthImage (c : Capture)
  | CallClose (d : Device).

(** The attributes of a [KinectAzureModule] instance; [None] is an attribute
    that has not been assigned yet. *)
Record KinectAzureModule : Type := mkSelf {
  device_index : option Z;
  resolution_map : option (gmap string k4a_color_resolution_t);
  depth_mode_map : option (gmap string k4a_depth_mode_t);
  resolution : option k4a_color_resolution_t;
  depth_mode : option k4a_depth_mode_t;
  device_config : option ConfigRef;
  device : option Device
}.

Definition empty_object : KinectAzureModule :=
  mkSelf None None None None None None None.

(** The state every method transforms.  [stdout] holds the lines the module
    itself prints; anything the vendor package writes to the terminal is part
    of its own state [W]. *)
Record Heap : Type := mkHeap {
  self : KinectAzureModule;
  default_configuration : Configuration ConfigRest;
  sdk : W;
  stdout : list string;
  calls : list Call
}.

(** ** State and exception monad *)

Definition M (A : Type) : Type := Heap -> Outcome A * Heap.

Definition ret {A} (a : A) : M A := fun h => (Returns a, h).
Definition raise {A} (e : Exn) : M A := fun h => (Raises e, h).
Definition bind {A B} (m : M A) (k : A -> M B) : M B :=
  fun h => match m h with
           | (Returns a, h') => k a h'
           | (Raises e, h') => (Raises e, h')
           end.

End Wrapper.

Arguments Returns {K A} _.
Arguments Raises {K A} _.

Declare Scope py_scope.
Delimit Scope py_scope with py.
Notation "x <- c ;; k" := (bind c (fun x => k))
  (at level 100, c at next level, right associativity) : py_scope.
Notation "c ;;; k" := (bind c (fun _ => k))
  (at level 100, right associativity) : py_scope.

Section Methods.
Context {K : PyKinect}.
Local Open Scope py_scope.

(** *** Attribute access on [self] *)

Definition getattr {A} (name : string) (field : KinectAzureModule -> option A) : M A :=
  fun h => match field (self h) with
           | Some v => (Returns v, h)
           | None => (Raises (AttributeError name), h)
           end.

Definition update_self (f : KinectAzureModule -> KinectAzureModule) : M unit :=
  fun h => (Returns tt,
            mkHeap (f (self h)) (default_configuration h) (sdk h) (stdout h) (calls h)).

Definition with_device_index (v : Z) (o : KinectAzureModule) : KinectAzureModule :=
  mkSelf (Some v) (resolution_map o) (depth_mode_map o) (resolution o)
         (depth_mode o) (device_config o) (device o).
Definition with_resolution_map (v : gmap string k4a_color_resolution_t)
    (o : KinectAzureModule) : KinectAzureModule :=
  mkSelf (device_index o) (Some v) (depth_mode_map o) (resolution o)
         (depth_mode o) (device_config o) (device o).
Definition with_depth_mode_map (v : gmap string k4a_depth_mode_t)
    (o : KinectAzureModule) : KinectAzureModule :=
  mkSelf (device_index o) (resolution_map o) (Some v) (resolution o)
         (depth_mode o) (device_config o) (device o).
Definition with_resolution (v : k4a_color_resolution_t)
    (o : KinectAzureModule) : KinectAzureModule :=
  mkSelf (device_index o) (resolution_map o) (depth_mode_map o) (Some v)
         (depth_mode o) (device_config o) (device o).
Definition with_depth_mode (v : k4a_depth_mode_t)
    (o : KinectAzureModule) : KinectAzureModule :=
  mkSelf (device_index o) (resolution_map o) (depth_mode_map o) (resolution o)
         (Some v) (device_config o) (device o).
Definition with_device_config (v : ConfigRef)
    (o : KinectAzureModule) : KinectAzureModule :=
  mkSelf (device_index o) (resolution_map o) (depth_mode_map o) (resolution o)
         (depth_mode o) (Some v) (device o).
Definition with_device (v : Device) (o : KinectAzureModule) : KinectAzureModule :=
  mkSelf (device_index o) (resolution_map o) (depth_mode_map o) (resolution o)
         (depth_mode o) (device_config o) (Some v).

(** *** The aliased configuration object *)

Definition deref (r : ConfigRef) : M (Configuration ConfigRest) :=
  fun h => match r with
           | default_configuration_ref => (Returns (default_configuration h), h)
           end.

Definition store (r : ConfigRef)
    (f : Configuration ConfigRest -> Configuration ConfigRest) : M unit :=
  fun h => match r with
           | default_configuration_ref =>
               (Returns tt,
                mkHeap (self h) (f (default_configuration h)) (sdk h)
                       (stdout h) (calls h))
           end.

Definition set_color_resolution (v : k4a_color_resolution_t)
    (c : Configuration ConfigRest) : Configuration ConfigRest :=
  Config.mk v (Config.depth_mode c) (Config.other_settings c).
Definition set_depth_mode_field (v : k4a_depth_mode_t)
    (c : Configuration ConfigRest) : Configuration ConfigRest :=
  Config.mk (Config.color_resolution c) v (Config.other_settings c).

(** *** Dictionaries, printing, SDK calls *)

(** [d[key]] *)
Definition getitem {V} (d : gmap string V) (key : string) : M V :=
  match d !! key with
  | Some v => ret v
  | None => raise (KeyError key)
  end.

(** [key in d] *)
Definition contains {V} (d : gmap string V) (key : string) : bool :=
  bool_decide (is_Some (d !! key)).

Definition print (line : string) : M unit :=
  fun h => (Returns tt,
            mkHeap (self h) (default_configuration h) (sdk h)
                   (stdout h ++ [line]) (calls h)).

(** One call into the vendor package: it is logged, the library state moves
    on, and an exception of the SDK propagates. *)
Definition sdk_call {A} (c : Call) (op : W -> (SdkExn + A) * W) : M A :=
  fun h =>
    let '(r, w) := op (sdk h) in
    let h' := mkHeap (self h) (default_configuration h) w (stdout h)
                     (calls h ++ [c]) in
    match r with
    | inr a => (Returns a, h')
    | inl e => (Raises (SdkError e), h')
    end.

(** ** The methods of [KinectAzureModule] *)

Definition init_resolution_map : gmap string k4a_color_resolution_t :=
  list_to_map
    [ ("720P", K4A_COLOR_RESOLUTION_720P);
      ("1080P", K4A_COLOR_RESOLUTION_1080P);
      ("1440P", K4A_COLOR_RESOLUTION_1440P);
      ("1536P", K4A_COLOR_RESOLUTION_1536P);
      ("2160P", K4A_COLOR_RESOLUTION_2160P);
      ("3072P", K4A_COLOR_RESOLUTION_3072P) ].

Definition init_depth_mode_map : gmap string k4a_depth_mode_t :=
  list_to_map
    [ ("NFOV_2X2BINNED", K4A_DEPTH_MODE_NFOV_2X2BINNED);
      ("NFOV_UNBINNED", K4A_DEPTH_MODE_NFOV_UNBINNED);
      ("WFOV_2X2BINNED", K4A_DEPTH_MODE_WFOV_2X2BINNED);
      ("WFOV_UNBINNED", K4A_DEPTH_MODE_WFOV_UNBINNED);
      ("PASSIVE_IR", K4A_DEPTH_MODE_PASSIVE_IR) ].

Definition set_resolution (resolution_label : string) : M unit :=
  m <- getattr "resolution_map" resolution_map ;;
  if contains m resolution_label then
    m' <- getattr "resolution_map" resolution_map ;;
    v <- getitem m' resolution_label ;;
    update_self (with_resolution v)
  else
    (print "Invalid resolution. Defaulting to 1080P." ;;;
     m' <- getattr "resolution_map" resolution_map ;;
     v <- getitem m' "1080P" ;;
     update_self (with_resolution v)).

Definition set_depth_mode (depth_mode_label : string) : M unit :=
  m <- getattr "depth_mode_map" depth_mode_map ;;
  if contains m depth_mode_label then
    m' <- getattr "depth_mode_map" depth_mode_map ;;
    v <- getitem m' depth_mode_label ;;
    update_self (with_depth_mode v)
  else
    (print "Invalid depth mode. Defaulting to NFOV_2X2BINNED." ;;;
     m' <- getattr "depth_mode_map" depth_mode_map ;;
     v <- getitem m' "NFOV_2X2BINNED" ;;
     update_self (with_depth_mode v)).

Definition __init__ (device_index_arg : Z) (resolution_label depth_mode_label : string)
    : M unit :=
  update_self (with_device_index device_index_arg) ;;;
  update_self (with_resolution_map init_resolution_map) ;;;
  update_self (with_depth_mode_map init_depth_mode_map) ;;;
  set_resolution resolution_label ;;;
  set_depth_mode depth_mode_label ;;;
  sdk_call CallInitializeLibraries initialize_libraries.

(** [KinectAzureModule(device_index, resolution, depth_mode)]: a fresh object
    on which [__init__] runs. *)
Definition new_KinectAzureModule (device_index_arg : Z)
    (resolution_label depth_mode_label : string) : M unit :=
  update_self (fun _ => empty_object) ;;;
  __init__ device_index_arg resolution_label depth_mode_label.

Definition start_device : M unit :=
  update_self (with_device_config default_configuration_ref) ;;;
  r <- getattr "resolution" resolution ;;
  c <- getattr "device_config" device_config ;;
  store c (set_color_resolution r) ;;;
  dm <- getattr "depth_mode" depth_mode ;;
  c' <- getattr "device_config" device_config ;;
  store c' (set_depth_mode_field dm) ;;;
  i <- getattr "device_index" device_index ;;
  c'' <- getattr "device_config" device_config ;;
  config <- deref c'' ;;
  d <- sdk_call (CallStartDevice i config) (sdk_start_device i config) ;;
  update_self (with_device d).

Definition param : M (list (list Num) * list Num) :=
  d <- getattr "device" device ;;
  matrix <- sdk_call (CallGetMatrix d 1) (calibration_get_matrix d 1) ;;
  d' <- getattr "device" device ;;
  distortion <- sdk_call (CallGetDistortion d') (calibration_get_distortion d') ;;
  ret (matrix, distortion).

Definition capture_loop : M (bool * Image * bool * Image) :=
  d <- getattr "device" device ;;
  capture <- sdk_call (CallUpdate d) (Device_update d) ;;
  color <- sdk_call (CallGetColorImage capture) (get_color_image capture) ;;
  let '(ret_RGB, RGB_image) := color in
  depth <- sdk_call (CallGetTransformedDepthImage capture)
                    (get_transformed_depth_image capture) ;;
  let '(ret_depth, depth_image) := depth in
  ret (ret_RGB, RGB_image, ret_depth, depth_image).

Definition close_device : M unit :=
  d <- getattr "device" device ;;
  sdk_call (CallClose d) (Device_close d).

End Methods.

(** ** Vocabulary of the properties *)

Section Vocabulary.
Context {K : PyKinect}.
Local Open Scope py_scope.

(** The labels the two tables are keyed by. *)
Definition supported_resolutions : list string :=
  ["720P"; "1080P"; "1440P"; "1536P"; "2160P"; "3072P"].
Definition supported_depth_modes : list string :=
  ["NFOV_2X2BINNED"; "NFOV_UNBINNED"; "WFOV_2X2BINNED"; "WFOV_UNBINNED";
   "PASSIVE_IR"].

(** A client changing its selection: any sequence of calls to the two
    setters, stopping at the first one that raises. *)
Inductive Selection : Set :=
  | SetResolution (label : string)
  | SetDepthMode (label : string).

Definition select (s : Selection) : M unit :=
  match s with
  | SetResolution label => set_resolution label
  | SetDepthMode label => set_depth_mode label
  end.

Fixpoint selections (l : list Selection) : M unit :=
  match l with
  | [] => ret tt
  | s :: rest => select s ;;; selections rest
  end.

(** Number of [device.update()] calls in a log of SDK calls. *)
Definition is_update (c : Call) : bool :=
  match c with CallUpdate _ => true | _ => false end.
Definition updates (log : list Call) : nat :=
  length (List.filter is_update log).


End Vocabulary.

(** Running a method for its result and for the heap it leaves. *)
Definition result {K : PyKinect} {A} (m : M A) (h : Heap) : Outcome A := fst (m h).
Definition after {K : PyKinect} {A} (m : M A) (h : Heap) : Heap := snd (m h).

(** ** A scripted device

    An implementation of the vendor interface that needs no hardware, for
    running the wrapper on concrete inputs.  One camera is attached, at
    index 0.  Every update consumes the next entry of [script], the pair of
    success flags the two image accessors will report for that frame; the
    scripted device does not look at whether it has been closed.  Its
    calibration is [[fx 0 cx] [0 fy cy] [0 0 1]] with eight distortion
    coefficients. *)
Module Mock.

Inductive Failure : Set := DeviceUnavailable | Timeout.

Record World : Type := mkWorld {
  initialized : bool;
  claimed : bool;
  script : list (bool * bool)
}.

Definition start (i : Z) (c : Configuration unit) (w : World)
    : (Failure + Z) * World :=
  if bool_decide (i = 0) && negb (claimed w)
  then (inr i, mkWorld (initialized w) true (script w))
  else (inl DeviceUnavailable, w).

Definition update (d : Z) (w : World) : (Failure + bool * bool) * World :=
  match script w with
  | [] => (inl Timeout, w)
  | frame :: rest => (inr frame, mkWorld (initialized w) (claimed w) rest)
  end.

Definition image_of (ok : bool) (pixels : Z) : option Z :=
  if ok then Some pixels else None.

#[local] Instance sdk : PyKinect := {|
  W := World;
  SdkExn := Failure;
  ConfigRest := unit;
  Device := Z;
  Capture := bool * bool;
  Image := option Z;
  Num := Z;
  initialize_libraries := fun w => (inr tt, mkWorld true (claimed w) (script w));
  sdk_start_device := start;
  calibration_get_matrix := fun d camera w =>
    (inr [[600; 0; 320]; [0; 600; 240]; [0; 0; 1]], w);
  calibration_get_distortion := fun d w => (inr [1; 2; 3; 4; 5; 6; 7; 8], w);
  Device_update := update;
  get_color_image := fun c w => (inr (fst c, image_of (fst c) 255), w);
  get_transformed_depth_image := fun c w => (inr (snd c, image_of (snd c) 1000), w);
  Device_close := fun d w => (inr tt, mkWorld (initialized w) false (script w))
|}.

(** The heap of a process that has imported the packages and done nothing
    else; [frames] is what the camera is going to deliver. *)
Definition boot (frames : list (bool * bool)) : Heap :=
  mkHeap empty_object
         (Config.mk K4A_COLOR_RESOLUTION_720P K4A_DEPTH_MODE_WFOV_2X2BINNED tt)
         (mkWorld false false frames) [] [].

(** The session [KinectAzureModule()] builds on that heap, and the same
    session once [start_device] has returned. *)
Definition fresh (frames : list (bool * bool)) : Heap :=
  mkHeap (mkSelf (Some 0) (Some init_resolution_map) (Some init_depth_mode_map)
                 (Some K4A_COLOR_RESOLUTION_1080P)
                 (Some K4A_DEPTH_MODE_NFOV_2X2BINNED) None None)
         (Config.mk K4A_COLOR_RESOLUTION_720P K4A_DEPTH_MODE_WFOV_2X2BINNED tt)
         (mkWorld true false frames) [] [CallInitializeLibraries].

Definition started (frames : list (bool * bool)) : Heap :=
  let config :=
    Config.mk K4A_COLOR_RESOLUTION_1080P K4A_DEPTH_MODE_NFOV_2X2BINNED tt in
  mkHeap (mkSelf (Some 0) (Some init_resolution_map) (Some init_depth_mode_map)
                 (Some K4A_COLOR_RESOLUTION_1080P)
                 (Some K4A_DEPTH_MODE_NFOV_2X2BINNED)
                 (Some default_configuration_ref) (Some 0))
         config (mkWorld true true frames) []
         [CallInitializeLibraries; CallStartDevice 0 config].

End Mock.

(** ** Clients of a session *)

Section Clients.
Context {K : PyKinect}.

(** The enum a label resolves to through the tables of [__init__]. *)
Definition resolve_resolution (label : string) : k4a_color_resolution_t :=
  default K4A_COLOR_RESOLUTION_1080P (init_resolution_map !! label).
Definition resolve_depth_mode (label : string) : k4a_depth_mode_t :=
  default K4A_DEPTH_MODE_NFOV_2X2BINNED (init_depth_mode_map !! label).

(** The label of the last call to each setter in a sequence, if any. *)
Fixpoint last_resolution (l : list Selection) : option string :=
  match l with
  | [] => None
  | s :: rest =>
      match last_resolution rest with
      | Some label => Some label
      | None => match s with SetResolution label => Some label | _ => None end
      end
  end.

Fixpoint last_depth_mode (l : list Selection) : option string :=
  match l with
  | [] => None
  | s :: rest =>
      match last_depth_mode rest with
      | Some label => Some label
      | None => match s with SetDepthMode label => Some label | _ => None end
      end
  end.

(** The warning lines a sequence of setter calls prints. *)
Definition warning (s : Selection) : list string :=
  match s with
  | SetResolution label =>
      if contains init_resolution_map label then []
      else ["Invalid resolution. Defaulting to 1080P."]
  | SetDepthMode label =>
      if contains init_depth_mode_map label then []
      else ["Invalid depth mode. Defaulting to NFOV_2X2BINNED."]
  end.

Definition warnings (l : list Selection) : list string := flat_map warning l.

(** Any method call a client can make on a session.  A client may catch what
    a call raises and go on, so a sequence of calls is run for the heap each
    one leaves. *)
Inductive Op : Set :=
  | OpSetResolution (label : string)
  | OpSetDepthMode (label : string)
  | OpStartDevice
  | OpParam
  | OpCaptureLoop
  | OpCloseDevice.

Definition run_op (o : Op) (h : Heap) : Heap :=
  match o with
  | OpSetResolution label => after (set_resolution label) h
  | OpSetDepthMode label => after (set_depth_mode label) h
  | OpStartDevice => after start_device h
  | OpParam => after param h
  | OpCaptureLoop => after capture_loop h
  | OpCloseDevice => after close_device h
  end.

Definition run_ops (l : list Op) (h : Heap) : Heap :=
  fold_left (fun h o => run_op o h) l h.

(** What construction establishes about a session built with index [i]. *)
Definition configured (i : Z) (h : Heap) : Prop :=
  device_index (self h) = Some i /\
  resolution_map (self h) = Some init_resolution_map /\
  depth_mode_map (self h) = Some init_depth_mode_map /\
  (exists key v, init_resolution_map !! key = Some v /\
                 resolution (self h) = Some v) /\
  (exists key v, init_depth_mode_map !! key = Some v /\
                 depth_mode (self h) = Some v).

(** A session whose [device] attribute is set got it from a start at index
    [i], which also set [device_config]. *)
Definition started_by (i : Z) (h : Heap) : Prop :=
  forall d, device (self h) = Some d ->
    device_config (self h) = Some default_configuration_ref /\
    exists cfg, CallStartDevice i cfg ∈ calls h.

(** The SDK calls each device method may issue. *)
Definition is_calibration_call (c : Call) : bool :=
  match c with CallGetMatrix _ _ | CallGetDistortion _ => true | _ => false end.
Definition is_capture_call (c : Call) : bool :=
  match c with
  | CallUpdate _ | CallGetColorImage _ | CallGetTransformedDepthImage _ => true
  | _ => false
  end.

(** The record a client sees when it reads [self.device_config]. *)
Definition read_device_config : M (Configuration ConfigRest) :=
  bind (getattr "device_config" device_config) deref.

(** A second session object in the same process: the interpreter state is
    shared, [self] is the other object. *)
Definition with_self (o : KinectAzureModule) (h : Heap) : Heap :=
  mkHeap o (default_configuration h) (sdk h) (stdout h) (calls h).

End Clients.

(** ** A faulty device

    An implementation of the vendor interface in which chosen operations
    raise, for running the error paths.  An operation raises its own name;
    every frame reports the same pair of success flags. *)
Module Faulty.

Inductive Operation : Set :=
  | Initialize | Start | Matrix | Distortion | Update | Color | Depth | Close.

Definition attempt {A} (bad : Operation -> bool) (op : Operation) (a : A)
    : unit -> (Operation + A) * unit :=
  fun w => (if bad op then inl op else inr a, w).

Definition sdk (bad : Operation -> bool) (flags : bool * bool) : PyKinect := {|
  W := unit;
  SdkExn := Operation;
  ConfigRest := unit;
  Device := Z;
  Capture := unit;
  Image := Z;
  Num := Z;
  initialize_libraries := attempt bad Initialize tt;
  sdk_start_device := fun i c => attempt bad Start i;
  calibration_get_matrix := fun d camera =>
    attempt bad Matrix [[1; 0; 0]; [0; 1; 0]; [0; 0; 1]];
  calibration_get_distortion := fun d => attempt bad Distortion [0];
  Device_update := fun d => attempt bad Update tt;
  get_color_image := fun c => attempt bad Color (fst flags, 1);
  get_transformed_depth_image := fun c => attempt bad Depth (snd flags, 2);
  Device_close := fun d => attempt bad Close tt
|}.

(** A started session on the faulty device. *)
Definition started (bad : Operation -> bool) (flags : bool * bool)
    : Heap (K := sdk bad flags) :=
  let config :=
    Config.mk K4A_COLOR_RESOLUTION_1080P K4A_DEPTH_MODE_NFOV_2X2BINNED tt in
  mkHeap (K := sdk bad flags)
         (mkSelf (K := sdk bad flags) (Some 0) (Some init_resolution_map)
                 (Some init_depth_mode_map)
                 (Some K4A_COLOR_RESOLUTION_1080P)
                 (Some K4A_DEPTH_MODE_NFOV_2X2BINNED)
                 (Some default_configuration_ref) (Some 0))
         config tt []
         [CallInitializeLibraries (K := sdk bad flags);
          CallStartDevice (K := sdk bad flags) 0 config].

Definition none (x : Operation) : bool := false.

Definition only (op : Operation) (x : Operation) : bool :=
  match op, x with
  | Initialize, Initialize | Start, Start | Matrix, Matrix
  | Distortion, Distortion | Update, Update | Color, Color
  | Depth, Depth | Close, Close => true
  | _, _ => false
  end.

End Faulty.

(** ** The demonstration script

    The block under [if __name__ == "__main__"]: it constructs a session,
    starts the device, opens two windows and shows frames until the key [q]
    is pressed.  OpenCV enters as an interface, like the vendor package; its
    state is the windows and the keyboard. *)

Class OpenCV {K : PyKinect} : Type := {
  G : Type;
  CvExn : Type;
  WINDOW_NORMAL : Z;
  NORM_MINMAX : Z;
  (* cv2.namedWindow(name, flags) *)
  namedWindow : string -> Z -> G -> (CvExn + unit) * G;
  (* cv2.imshow(name, image) *)
  imshow : string -> Image -> G -> (CvExn + unit) * G;
  (* cv2.normalize(image, None, alpha, beta, norm_type).astype(np.uint8) *)
  normalize_astype_uint8 : Image -> Z -> Z -> Z -> G -> (CvExn + Image) * G;
  (* cv2.waitKey(delay) *)
  waitKey : Z -> G -> (CvExn + Z) * G;
  (* cv2.destroyAllWindows() *)
  destroyAllWindows : G -> (CvExn + unit) * G;
  (* image is None *)
  is_None : Image -> bool
}.

Section Script.
Context {K : PyKinect} {CV : OpenCV}.

(** The OpenCV calls, in the order issued (ghost state). *)
Inductive GuiCall : Type :=
  | GuiNamedWindow (name : string) (flags : Z)
  | GuiImshow (name : string) (image : Image)
  | GuiNormalize (image : Image)
  | GuiWaitKey (delay : Z)
  | GuiDestroyAllWindows.

Record Process : Type := mkProcess {
  heap : Heap;
  gui : G;
  gui_calls : list GuiCall
}.

Inductive ScriptExn : Type :=
  | WrapperRaised (e : Exn)
  | CvRaised (e : CvExn).

Inductive Ended (A : Type) : Type :=
  | Done (a : A)
  | Failed (e : ScriptExn).
Arguments Done {A} _.
Arguments Failed {A} _.

Definition Run (A : Type) : Type := Process -> Ended A * Process.

Definition sret {A} (a : A) : Run A := fun p => (Done a, p).
Definition sbind {A B} (m : Run A) (k : A -> Run B) : Run B :=
  fun p => match m p with
           | (Done a, p') => k a p'
           | (Failed e, p') => (Failed e, p')
           end.

(** A method of the session, called from the script. *)
Definition call {A} (m : M A) : Run A :=
  fun p =>
    let '(o, h) := m (heap p) in
    (match o with
     | Returns a => Done a
     | Raises e => Failed (WrapperRaised e)
     end,
     mkProcess h (gui p) (gui_calls p)).

(** One call into OpenCV. *)
Definition cv {A} (c : GuiCall) (op : G -> (CvExn + A) * G) : Run A :=
  fun p =>
    let '(r, g) := op (gui p) in
    let p' := mkProcess (heap p) g (gui_calls p ++ [c]) in
    match r with
    | inr a => (Done a, p')
    | inl e => (Failed (CvRaised e), p')
    end.

End Script.

Arguments Done {K CV A} _.
Arguments Failed {K CV A} _.

Declare Scope script_scope.
Delimit Scope script_scope with script.
Notation "x <- c ;; k" := (sbind c (fun x => k))
  (at level 100, c at next level, right associativity) : script_scope.
Notation "c ;;; k" := (sbind c (fun _ => k))
  (at level 100, right associativity) : script_scope.

Section ScriptBody.
Context {K : PyKinect} {CV : OpenCV}.
Local Open Scope script_scope.

(** [cv2.waitKey(1) & 0xFF == ord('q')], on the key code returned. *)
Definition quit_requested (key : Z) : bool := Z.land key 255 =? 113.

(** How one pass through the body of [while True] ends. *)
Inductive Pass : Set := Continue | Break.

(** How the loop ends; [OutOfFuel] is the loop still running after the
    given number of passes. *)
Inductive LoopEnd : Set := LeftByBreak | OutOfFuel.

Definition pass : Run Pass :=
  frame <- call capture_loop ;;
  let '(ret_rgb, color_img, ret_depth, depth_img) := frame in
  if negb ret_rgb || negb ret_depth then
    sret Continue
  else
    (cv (GuiImshow "Color Image" color_img) (imshow "Color Image" color_img) ;;;
     (if negb (is_None depth_img) then
        (depth_vis <- cv (GuiNormalize depth_img)
                         (normalize_astype_uint8 depth_img 0 255 NORM_MINMAX) ;;
         cv (GuiImshow "Depth Image" depth_vis) (imshow "Depth Image" depth_vis))
      else sret tt) ;;;
     key <- cv (GuiWaitKey 1) (waitKey 1) ;;
     if quit_requested key then sret Break else sret Continue).

Fixpoint while_true (fuel : nat) : Run LoopEnd :=
  match fuel with
  | O => sret OutOfFuel
  | S n =>
      p <- pass ;;
      match p with
      | Break => sret LeftByBreak
      | Continue => while_true n
      end
  end.

Definition main (fuel : nat) : Run LoopEnd :=
  call (new_KinectAzureModule 0 "1080P" "NFOV_2X2BINNED") ;;;
  call start_device ;;;
  cv (GuiNamedWindow "Color Image" WINDOW_NORMAL)
     (namedWindow "Color Image" WINDOW_NORMAL) ;;;
  cv (GuiNamedWindow "Depth Image" WINDOW_NORMAL)
     (namedWindow "Depth Image" WINDOW_NORMAL) ;;;
  e <- while_true fuel ;;
  match e with
  | OutOfFuel => sret OutOfFuel
  | LeftByBreak =>
      cv GuiDestroyAllWindows destroyAllWindows ;;;
      call close_device ;;;
      sret LeftByBreak
  end.

Definition outcome {A} (m : Run A) (p : Process) : Ended A := fst (m p).
Definition left {A} (m : Run A) (p : Process) : Process := snd (m p).

(** Number of [device.close()] calls in a log of SDK calls. *)
Definition is_close (c : Call) : bool :=
  match c with CallClose _ => true | _ => false end.
Definition closes (log : list Call) : nat :=
  length (List.filter is_close log).

(** A device that never delivers a complete frame: every update returns a
    capture, and at least one of its two images is reported as failed. *)
Definition never_delivers (d : Device) : Prop :=
  forall w,
    exists c w1 ret_rgb color_img w2 ret_depth depth_img w3,
      Device_update d w = (inr c, w1) /\
      get_color_image c w1 = (inr (ret_rgb, color_img), w2) /\
      get_transformed_depth_image c w2 = (inr (ret_depth, depth_img), w3) /\
      ret_rgb && ret_depth = false.

End ScriptBody.

(** A keyboard for the scripted runs: [waitKey] returns the next key code of
    the list (and -1, no key, once the list is used up); [is_none] tells
    which images are [None]. *)
Module Keyboard.

Definition next (delay : Z) (keys : list Z) : (unit + Z) * list Z :=
  match keys with
  | [] => (inr (-1), [])
  | key :: rest => (inr key, rest)
  end.

Definition cv2 {K : PyKinect} (is_none : Image -> bool) : OpenCV := {|
  G := list Z;
  CvExn := unit;
  WINDOW_NORMAL := 0;
  NORM_MINMAX := 32;
  namedWindow := fun name flags g => (inr tt, g);
  imshow := fun name image g => (inr tt, g);
  normalize_astype_uint8 := fun image alpha beta norm_type g => (inr image, g);
  waitKey := next;
  destroyAllWindows := fun g => (inr tt, g);
  is_None := is_none
|}.

(** A process about to run the script, or the loop, on heap [h] with the
    keys [keys] waiting. *)
Definition process {K : PyKinect} (is_none : Image -> bool)
    (h : Heap) (keys : list Z) : Process (CV := cv2 is_none) :=
  mkProcess (CV := cv2 is_none) h keys [].

End Keyboard.

(** ** A device without calibration data

    An implementation of the vendor interface on which every call returns and
    both calibration accessors return empty arrays. *)
Module Uncalibrated.

Definition sdk : PyKinect := {|
  W := unit;
  SdkExn := unit;
  ConfigRest := unit;
  Device := Z;
  Capture := unit;
  Image := Z;
  Num := Z;
  initialize_libraries := fun w => (inr tt, w);
  sdk_start_device := fun i c w => (inr i, w);
  calibration_get_matrix := fun d camera w => (inr [], w);
  calibration_get_distortion := fun d w => (inr [], w);
  Device_update := fun d w => (inr tt, w);
  get_color_image := fun c w => (inr (true, 0), w);
  get_transformed_depth_image := fun c w => (inr (true, 0), w);
  Device_close := fun d w => (inr tt, w)
|}.

(** The heap of a process that has imported the packages and done nothing
    else. *)
Definition boot : Heap (K := sdk) :=
  mkHeap (K := sdk) (empty_object (K := sdk))
         (Config.mk K4A_COLOR_RESOLUTION_720P K4A_DEPTH_MODE_WFOV_2X2BINNED tt)
         tt [] [].

(** A session constructed with the default labels and started. *)
Definition started : Heap (K := sdk) :=
  after (K := sdk) start_device
    (after (K := sdk) (new_KinectAzureModule 0 "1080P" "NFOV_2X2BINNED") boot).

End Uncalibrated.

(** ** Inputs of the runs *)

Module Inputs.

(** The session [__init__] builds, after a client has added an entry for the
    label "OFF" to the resolution table and to nothing else. *)
Definition with_added_resolution : Heap (K := Mock.sdk) :=
  mkHeap (K := Mock.sdk)
    (with_resolution_map (K := Mock.sdk)
       (<["OFF" := K4A_COLOR_RESOLUTION_OFF]> init_resolution_map)
       (self (Mock.fresh [])))
    (default_configuration (Mock.fresh [])) (sdk (Mock.fresh []))
    (stdout (Mock.fresh [])) (calls (Mock.fresh [])).

(** The same for the depth-mode table. *)
Definition with_added_depth_mode : Heap (K := Mock.sdk) :=
  mkHeap (K := Mock.sdk)
    (with_depth_mode_map (K := Mock.sdk)
       (<["OFF" := K4A_DEPTH_MODE_OFF]> init_depth_mode_map)
       (self (Mock.fresh [])))
    (default_configuration (Mock.fresh [])) (sdk (Mock.fresh []))
    (stdout (Mock.fresh [])) (calls (Mock.fresh [])).

(** The session [__init__] builds, after a client has deleted the entry
    "1080P" from the resolution table and touched nothing else. *)
Definition without_default_resolution : Heap (K := Mock.sdk) :=
  mkHeap (K := Mock.sdk)
    (with_resolution_map (K := Mock.sdk)
       (delete "1080P" init_resolution_map) (self (Mock.fresh [])))
    (default_configuration (Mock.fresh [])) (sdk (Mock.fresh []))
    (stdout (Mock.fresh [])) (calls (Mock.fresh [])).

(** The same for the entry "NFOV_2X2BINNED" of the depth-mode table. *)
Definition without_default_depth_mode : Heap (K := Mock.sdk) :=
  mkHeap (K := Mock.sdk)
    (with_depth_mode_map (K := Mock.sdk)
       (delete "NFOV_2X2BINNED" init_depth_mode_map) (self (Mock.fresh [])))
    (default_configuration (Mock.fresh [])) (sdk (Mock.fresh []))
    (stdout (Mock.fresh [])) (calls (Mock.fresh [])).

(** A second session object, for the camera at index 1, with other
    selections. *)
Definition second_session : KinectAzureModule (K := Mock.sdk) :=
  mkSelf (K := Mock.sdk) (Some 1) (Some init_resolution_map)
         (Some init_depth_mode_map)
         (Some K4A_COLOR_RESOLUTION_3072P)
         (Some K4A_DEPTH_MODE_PASSIVE_IR) None None.

(** The scripted device about to enter the loop, with keys waiting. *)
Definition looping (frames : list (bool * bool)) (keys : list Z)
    : Process (K := Mock.sdk) (CV := Keyboard.cv2 (fun _ => false)) :=
  Keyboard.process (K := Mock.sdk) (fun _ => false) (Mock.started frames) keys.

(** The same, with an OpenCV for which every depth image is [None]. *)
Definition looping_without_depth (frames : list (bool * bool)) (keys : list Z)
    : Process (K := Mock.sdk) (CV := Keyboard.cv2 (fun _ => true)) :=
  Keyboard.process (K := Mock.sdk) (fun _ => true) (Mock.started frames) keys.

(** A camera that never delivers a colour image, about to enter the loop. *)
Definition dark (keys : list Z)
    : Process (K := Faulty.sdk Faulty.none (false, true))
              (CV := Keyboard.cv2 (fun _ => false)) :=
  Keyboard.process (K := Faulty.sdk Faulty.none (false, true)) (fun _ => false)
    (Faulty.started Faulty.none (false, true)) keys.

(** A process about to run the whole script. *)
Definition booting (frames : list (bool * bool)) (keys : list Z)
    : Process (K := Mock.sdk) (CV := Keyboard.cv2 (fun _ => false)) :=
  Keyboard.process (K := Mock.sdk) (fun _ => false) (Mock.boot frames) keys.

End Inputs.

(** * Properties *)

Section Properties.
Context {K : PyKinect}.
Local Open Scope py_scope.

(** ** Running the monad *)

Lemma bind_returns {A B} (m : M A) (k : A -> M B) h a h' :
  m h = (Returns a, h') -> bind m k h = k a h'.
Proof. intros E. unfold bind. now rewrite E. Qed.

Lemma bind_raises {A B} (m : M A) (k : A -> M B) h e h' :
  m h = (Raises e, h') -> bind m k h = (Raises e, h').
Proof. intros E. unfold bind. now rewrite E. Qed.

Lemma getattr_set {A} name (field : KinectAzureModule -> option A) h v :
  field (self h) = Some v -> getattr name field h = (Returns v, h).
Proof. intros E. unfold getattr. now rewrite E. Qed.

Lemma getattr_unset {A} name (field : KinectAzureModule -> option A) h :
  field (self h) = None -> getattr name field h = (Raises (AttributeError name), h).
Proof. intros E. unfold getattr. now rewrite E. Qed.

Lemma contains_true {V} (d : gmap string V) key v :
  d !! key = Some v -> contains d key = true.
Proof. intros E. unfold contains. apply bool_decide_eq_true. eauto. Qed.

Lemma contains_false {V} (d : gmap string V) key :
  d !! key = None -> contains d key = false.
Proof.
  intros E. unfold contains. apply bool_decide_eq_false.
  rewrite E. apply is_Some_None.
Qed.

(** ** The two lookup tables *)

Lemma init_resolution_map_lookup (label : string) :
  init_resolution_map !! label =
    if decide (label = "720P") then Some K4A_COLOR_RESOLUTION_720P
    else if decide (label = "1080P") then Some K4A_COLOR_RESOLUTION_1080P
    else if decide (label = "1440P") then Some K4A_COLOR_RESOLUTION_1440P
    else if decide (label = "1536P") then Some K4A_COLOR_RESOLUTION_1536P
    else if decide (label = "2160P") then Some K4A_COLOR_RESOLUTION_2160P
    else if decide (label = "3072P") then Some K4A_COLOR_RESOLUTION_3072P
    else None.
Proof.
  unfold init_resolution_map. cbn [list_to_map foldr uncurry fst snd].
  repeat (destruct (decide (label = _)) as [->|E];
          [ now rewrite lookup_insert_eq
          | rewrite (lookup_insert_ne _ _ label) by congruence; clear E ]).
  apply lookup_empty.
Qed.

Lemma init_depth_mode_map_lookup (label : string) :
  init_depth_mode_map !! label =
    if decide (label = "NFOV_2X2BINNED") then Some K4A_DEPTH_MODE_NFOV_2X2BINNED
    else if decide (label = "NFOV_UNBINNED") then Some K4A_DEPTH_MODE_NFOV_UNBINNED
    else if decide (label = "WFOV_2X2BINNED") then Some K4A_DEPTH_MODE_WFOV_2X2BINNED
    else if decide (label = "WFOV_UNBINNED") then Some K4A_DEPTH_MODE_WFOV_UNBINNED
    else if decide (label = "PASSIVE_IR") then Some K4A_DEPTH_MODE_PASSIVE_IR
    else None.
Proof.
  unfold init_depth_mode_map. cbn [list_to_map foldr uncurry fst snd].
  repeat (destruct (decide (label = _)) as [->|E];
          [ now rewrite lookup_insert_eq
          | rewrite (lookup_insert_ne _ _ label) by congruence; clear E ]).
  apply lookup_empty.
Qed.

(** ** What the two setters compute, for any table *)

Lemma set_resolution_run h m label :
  resolution_map (self h) = Some m ->
  set_resolution label h =
    match m !! label with
    | Some v =>
        (Returns tt,
         mkHeap (with_resolution v (self h)) (default_configuration h) (sdk h)
                (stdout h) (calls h))
    | None =>
        let out := stdout h ++ ["Invalid resolution. Defaulting to 1080P."] in
        match m !! "1080P" with
        | Some v =>
            (Returns tt,
             mkHeap (with_resolution v (self h)) (default_configuration h)
                    (sdk h) out (calls h))
        | None =>
            (Raises (KeyError "1080P"),
             mkHeap (self h) (default_configuration h) (sdk h) out (calls h))
        end
    end.
Proof.
  intros Hm. unfold set_resolution.
  rewrite (bind_returns _ _ h m h) by now apply getattr_set.
  destruct (m !! label) as [v|] eqn:E.
  - rewrite (contains_true _ _ _ E).
    rewrite (bind_returns _ _ h m h) by now apply getattr_set.
    unfold getitem. rewrite E. reflexivity.
  - rewrite (contains_false _ _ E). cbn zeta.
    unfold bind at 1. cbn [print self default_configuration sdk stdout calls].
    unfold bind at 1, getattr at 1. cbn [self]. rewrite Hm.
    unfold getitem. destruct (m !! "1080P"); reflexivity.
Qed.

Lemma set_depth_mode_run h m label :
  depth_mode_map (self h) = Some m ->
  set_depth_mode label h =
    match m !! label with
    | Some v =>
        (Returns tt,
         mkHeap (with_depth_mode v (self h)) (default_configuration h) (sdk h)
                (stdout h) (calls h))
    | None =>
        let out := stdout h ++ ["Invalid depth mode. Defaulting to NFOV_2X2BINNED."] in
        match m !! "NFOV_2X2BINNED" with
        | Some v =>
            (Returns tt,
             mkHeap (with_depth_mode v (self h)) (default_configuration h)
                    (sdk h) out (calls h))
        | None =>
            (Raises (KeyError "NFOV_2X2BINNED"),
             mkHeap (self h) (default_configuration h) (sdk h) out (calls h))
        end
    end.
Proof.
  intros Hm. unfold set_depth_mode.
  rewrite (bind_returns _ _ h m h) by now apply getattr_set.
  destruct (m !! label) as [v|] eqn:E.
  - rewrite (contains_true _ _ _ E).
    rewrite (bind_returns _ _ h m h) by now apply getattr_set.
    unfold getitem. rewrite E. reflexivity.
  - rewrite (contains_false _ _ E). cbn zeta.
    unfold bind at 1. cbn [print self default_configuration sdk stdout calls].
    unfold bind at 1, getattr at 1. cbn [self]. rewrite Hm.
    unfold getitem. destruct (m !! "NFOV_2X2BINNED"); reflexivity.
Qed.

End Properties.

(** Closes the case list of a setter once the label has been compared with
    every key. *)
Ltac settle_label :=
  repeat match goal with |- _ /\ _ => split end;
  let H := fresh in
  intros H;
  first [ discriminate H
        | congruence
        | reflexivity
        | split; reflexivity
        | exfalso; apply H; rewrite !elem_of_cons; tauto
        | exfalso; rewrite !elem_of_cons, elem_of_nil in H; intuition congruence ].

Section Configure.
Context {K : PyKinect}.

(** C1.  On a session that carries the resolution table built by
    [__init__], [set_resolution] returns normally for every label string.
    Each of the six supported labels stores exactly the SDK constant of that
    name in [self.resolution] and prints nothing; every other label stores
    [K4A_COLOR_RESOLUTION_1080P] and prints one warning line. *)
Theorem set_resolution_selects (h : Heap) (label : string) :
  resolution_map (self h) = Some init_resolution_map ->
  exists h',
    set_resolution label h = (Returns tt, h') /\
    (label = "720P" -> resolution (self h') = Some K4A_COLOR_RESOLUTION_720P) /\
    (label = "1080P" -> resolution (self h') = Some K4A_COLOR_RESOLUTION_1080P) /\
    (label = "1440P" -> resolution (self h') = Some K4A_COLOR_RESOLUTION_1440P) /\
    (label = "1536P" -> resolution (self h') = Some K4A_COLOR_RESOLUTION_1536P) /\
    (label = "2160P" -> resolution (self h') = Some K4A_COLOR_RESOLUTION_2160P) /\
    (label = "3072P" -> resolution (self h') = Some K4A_COLOR_RESOLUTION_3072P) /\
    (label ∈ supported_resolutions -> stdout h' = stdout h) /\
    (label ∉ supported_resolutions ->
       resolution (self h') = Some K4A_COLOR_RESOLUTION_1080P /\
       stdout h' = stdout h ++ ["Invalid resolution. Defaulting to 1080P."]).
Proof.
  intros Hm. rewrite (set_resolution_run h _ label Hm).
  replace (init_resolution_map !! "1080P") with (Some K4A_COLOR_RESOLUTION_1080P)
    by (rewrite init_resolution_map_lookup; reflexivity).
  rewrite (init_resolution_map_lookup label).
  unfold supported_resolutions.
  repeat (destruct (decide (label = _)) as [->|?];
          [ eexists; split; [reflexivity|]; cbn; settle_label | ]).
  eexists; split; [reflexivity|]. cbn. settle_label.
Qed.

(** C2.  On a session that carries the depth-mode table built by
    [__init__], [set_depth_mode] returns normally for every label string.
    Each of the five supported labels stores exactly the SDK constant of that
    name in [self.depth_mode] and prints nothing; every other label stores
    [K4A_DEPTH_MODE_NFOV_2X2BINNED] and prints one warning line. *)
Theorem set_depth_mode_selects (h : Heap) (label : string) :
  depth_mode_map (self h) = Some init_depth_mode_map ->
  exists h',
    set_depth_mode label h = (Returns tt, h') /\
    (label = "NFOV_2X2BINNED" ->
       depth_mode (self h') = Some K4A_DEPTH_MODE_NFOV_2X2BINNED) /\
    (label = "NFOV_UNBINNED" ->
       depth_mode (self h') = Some K4A_DEPTH_MODE_NFOV_UNBINNED) /\
    (label = "WFOV_2X2BINNED" ->
       depth_mode (self h') = Some K4A_DEPTH_MODE_WFOV_2X2BINNED) /\
    (label = "WFOV_UNBINNED" ->
       depth_mode (self h') = Some K4A_DEPTH_MODE_WFOV_UNBINNED) /\
    (label = "PASSIVE_IR" ->
       depth_mode (self h') = Some K4A_DEPTH_MODE_PASSIVE_IR) /\
    (label ∈ supported_depth_modes -> stdout h' = stdout h) /\
    (label ∉ supported_depth_modes ->
       depth_mode (self h') = Some K4A_DEPTH_MODE_NFOV_2X2BINNED /\
       stdout h' =
         stdout h ++ ["Invalid depth mode. Defaulting to NFOV_2X2BINNED."]).
Proof.
  intros Hm. rewrite (set_depth_mode_run h _ label Hm).
  replace (init_depth_mode_map !! "NFOV_2X2BINNED")
    with (Some K4A_DEPTH_MODE_NFOV_2X2BINNED)
    by (rewrite init_depth_mode_map_lookup; reflexivity).
  rewrite (init_depth_mode_map_lookup label).
  unfold supported_depth_modes.
  repeat (destruct (decide (label = _)) as [->|?];
          [ eexists; split; [reflexivity|]; cbn; settle_label | ]).
  eexists; split; [reflexivity|]. cbn. settle_label.
Qed.

End Configure.

Section Frame.
Context {K : PyKinect}.

Lemma set_resolution_total h label :
  resolution_map (self h) = Some init_resolution_map ->
  exists key v out,
    init_resolution_map !! key = Some v /\
    set_resolution label h =
      (Returns tt,
       mkHeap (with_resolution v (self h)) (default_configuration h) (sdk h)
              out (calls h)).
Proof.
  intros Hm. rewrite (set_resolution_run h _ label Hm).
  destruct (init_resolution_map !! label) as [v|] eqn:E.
  - exists label, v, (stdout h). auto.
  - exists "1080P", K4A_COLOR_RESOLUTION_1080P.
    replace (init_resolution_map !! "1080P") with (Some K4A_COLOR_RESOLUTION_1080P)
      by (rewrite init_resolution_map_lookup; reflexivity).
    eexists. split; reflexivity.
Qed.

Lemma set_depth_mode_total h label :
  depth_mode_map (self h) = Some init_depth_mode_map ->
  exists key v out,
    init_depth_mode_map !! key = Some v /\
    set_depth_mode label h =
      (Returns tt,
       mkHeap (with_depth_mode v (self h)) (default_configuration h) (sdk h)
              out (calls h)).
Proof.
  intros Hm. rewrite (set_depth_mode_run h _ label Hm).
  destruct (init_depth_mode_map !! label) as [v|] eqn:E.
  - exists label, v, (stdout h). auto.
  - exists "NFOV_2X2BINNED", K4A_DEPTH_MODE_NFOV_2X2BINNED.
    replace (init_depth_mode_map !! "NFOV_2X2BINNED")
      with (Some K4A_DEPTH_MODE_NFOV_2X2BINNED)
      by (rewrite init_depth_mode_map_lookup; reflexivity).
    eexists. split; reflexivity.
Qed.

(** Whatever its table and its argument, [set_resolution] can only write
    [self.resolution] and the standard output. *)
Lemma set_resolution_touches h label :
  exists r out,
    after (set_resolution label) h =
      mkHeap (mkSelf (device_index (self h)) (resolution_map (self h))
                     (depth_mode_map (self h)) r (depth_mode (self h))
                     (device_config (self h)) (device (self h)))
             (default_configuration h) (sdk h) out (calls h) /\
    (is_Some (resolution (self h)) -> is_Some r).
Proof.
  unfold after. destruct h as [[i [m|] dmm r dm cfg dev] dc w out cs].
  - erewrite set_resolution_run by reflexivity.
    destruct (m !! label); [|destruct (m !! "1080P")]; cbn;
      eexists _, _; (split; [reflexivity|]); eauto.
  - unfold set_resolution; unfold bind at 1; cbn; eexists _, _;
      (split; [reflexivity|]); eauto.
Qed.

Lemma set_depth_mode_touches h label :
  exists dm out,
    after (set_depth_mode label) h =
      mkHeap (mkSelf (device_index (self h)) (resolution_map (self h))
                     (depth_mode_map (self h)) (resolution (self h)) dm
                     (device_config (self h)) (device (self h)))
             (default_configuration h) (sdk h) out (calls h) /\
    (is_Some (depth_mode (self h)) -> is_Some dm).
Proof.
  unfold after. destruct h as [[i rm [m|] r dm cfg dev] dc w out cs].
  - erewrite set_depth_mode_run by reflexivity.
    destruct (m !! label); [|destruct (m !! "NFOV_2X2BINNED")]; cbn;
      eexists _, _; (split; [reflexivity|]); eauto.
  - unfold set_depth_mode; unfold bind at 1; cbn; eexists _, _;
      (split; [reflexivity|]); eauto.
Qed.

(** C10.  For every heap and every label, [set_resolution] leaves
    [self.depth_mode], [self.device_index] and both tables as they were, and
    [set_depth_mode] leaves [self.resolution], [self.device_index] and both
    tables as they were. *)
Theorem setters_frame (h : Heap) (label : string) :
  (let h' := after (set_resolution label) h in
   depth_mode (self h') = depth_mode (self h) /\
   device_index (self h') = device_index (self h) /\
   resolution_map (self h') = resolution_map (self h) /\
   depth_mode_map (self h') = depth_mode_map (self h)) /\
  (let h' := after (set_depth_mode label) h in
   resolution (self h') = resolution (self h) /\
   device_index (self h') = device_index (self h) /\
   resolution_map (self h') = resolution_map (self h) /\
   depth_mode_map (self h') = depth_mode_map (self h)).
Proof.
  split; cbn zeta.
  - destruct (set_resolution_touches h label) as (r & out & -> & _). cbn. auto.
  - destruct (set_depth_mode_touches h label) as (dm & out & -> & _). cbn. auto.
Qed.

(** The heap on which construction makes its one SDK call. *)
Lemma construction_run h i r d :
  exists k1 v1 k2 v2 out,
    init_resolution_map !! k1 = Some v1 /\
    init_depth_mode_map !! k2 = Some v2 /\
    new_KinectAzureModule i r d h =
      sdk_call CallInitializeLibraries initialize_libraries
        (mkHeap (mkSelf (Some i) (Some init_resolution_map)
                        (Some init_depth_mode_map) (Some v1) (Some v2) None None)
                (default_configuration h) (sdk h) out (calls h)).
Proof.
  pose (h1 := mkHeap
                (with_depth_mode_map init_depth_mode_map
                   (with_resolution_map init_resolution_map
                      (with_device_index i empty_object)))
                (default_configuration h) (sdk h) (stdout h) (calls h)).
  destruct (set_resolution_total h1 r eq_refl) as (k1 & v1 & o1 & Hk1 & E1).
  match type of E1 with _ = (_, ?h2) =>
    destruct (set_depth_mode_total h2 d eq_refl) as (k2 & v2 & o2 & Hk2 & E2)
  end.
  exists k1, v1, k2, v2, o2. split; [exact Hk1|]. split; [exact Hk2|].
  unfold new_KinectAzureModule, __init__.
  do 4 (unfold bind at 1; cbn [update_self]).
  fold h1. rewrite (bind_returns _ _ _ _ _ E1).
  rewrite (bind_returns _ _ _ _ _ E2). reflexivity.
Qed.

(** A session that has only been constructed has no [device] attribute. *)
Lemma constructed_has_no_device h i r d :
  device (self (after (new_KinectAzureModule i r d) h)) = None.
Proof.
  destruct (construction_run h i r d) as (k1 & v1 & k2 & v2 & out & _ & _ & E).
  unfold after. rewrite E. unfold sdk_call. cbn.
  destruct (initialize_libraries (sdk h)) as [[e|[]] w]; reflexivity.
Qed.

(** C9.  Construction with any device index and any two label strings ends
    with both tables in place, [self.resolution] holding a value of the
    resolution table and [self.depth_mode] holding a value of the depth-mode
    table.  The labels never make it raise: it raises exactly when
    [pykinect.initialize_libraries()] does, with that exception. *)
Theorem construction_resolves (h : Heap) (i : Z) (r d : string) :
  let h' := after (new_KinectAzureModule i r d) h in
  resolution_map (self h') = Some init_resolution_map /\
  depth_mode_map (self h') = Some init_depth_mode_map /\
  (exists key v, init_resolution_map !! key = Some v /\
                 resolution (self h') = Some v) /\
  (exists key v, init_depth_mode_map !! key = Some v /\
                 depth_mode (self h') = Some v) /\
  result (new_KinectAzureModule i r d) h =
    match fst (initialize_libraries (sdk h)) with
    | inr _ => Returns tt
    | inl e => Raises (SdkError e)
    end.
Proof.
  cbn zeta. unfold after, result.
  destruct (construction_run h i r d) as (k1 & v1 & k2 & v2 & out & Hk1 & Hk2 & E).
  rewrite E. unfold sdk_call. cbn [sdk self default_configuration stdout calls].
  destruct (initialize_libraries (sdk h)) as [[e|[]] w]; cbn;
    (split; [reflexivity|]; split; [reflexivity|]; split; [eauto|];
     split; [eauto|reflexivity]).
Qed.

End Frame.

Section Lifecycle.
Context {K : PyKinect}.

(** ** What [start_device] does *)

Lemma start_device_run h r dm i :
  resolution (self h) = Some r ->
  depth_mode (self h) = Some dm ->
  device_index (self h) = Some i ->
  let cfg := Config.mk r dm (Config.other_settings (default_configuration h)) in
  let o := with_device_config default_configuration_ref (self h) in
  let log := calls h ++ [CallStartDevice i cfg] in
  start_device h =
    match sdk_start_device i cfg (sdk h) with
    | (inr d, w) => (Returns tt, mkHeap (with_device d o) cfg w (stdout h) log)
    | (inl e, w) => (Raises (SdkError e), mkHeap o cfg w (stdout h) log)
    end.
Proof.
  destruct h as [[i0 rm dmm r0 dm0 cfg0 dev] dc w out cs]. cbn.
  intros -> -> ->.
  unfold start_device, bind, update_self, getattr, store, deref, sdk_call. cbn.
  destruct (sdk_start_device i _ w) as [[e|d] w']; reflexivity.
Qed.

Lemma start_device_returns h h1 :
  start_device h = (Returns tt, h1) ->
  exists r dm i d w,
    resolution (self h) = Some r /\
    depth_mode (self h) = Some dm /\
    device_index (self h) = Some i /\
    let cfg := Config.mk r dm (Config.other_settings (default_configuration h)) in
    sdk_start_device i cfg (sdk h) = (inr d, w) /\
    h1 = mkHeap (with_device d (with_device_config default_configuration_ref (self h)))
                cfg w (stdout h) (calls h ++ [CallStartDevice i cfg]).
Proof.
  destruct (resolution (self h)) as [r|] eqn:Hr;
  destruct (depth_mode (self h)) as [dm|] eqn:Hdm;
  destruct (device_index (self h)) as [i|] eqn:Hi.
  - rewrite (start_device_run h r dm i Hr Hdm Hi). cbn zeta.
    destruct (sdk_start_device _ _ _) as [[e|d] w] eqn:E; intros [= <-].
    exists r, dm, i, d, w. auto.
  - destruct h as [[? ? ? ? ? ? ?] ? ? ? ?]; cbn in *; subst; discriminate.
  - destruct h as [[? ? ? ? ? ? ?] ? ? ? ?]; cbn in *; subst; discriminate.
  - destruct h as [[? ? ? ? ? ? ?] ? ? ? ?]; cbn in *; subst; discriminate.
  - destruct h as [[? ? ? ? ? ? ?] ? ? ? ?]; cbn in *; subst; discriminate.
  - destruct h as [[? ? ? ? ? ? ?] ? ? ? ?]; cbn in *; subst; discriminate.
  - destruct h as [[? ? ? ? ? ? ?] ? ? ? ?]; cbn in *; subst; discriminate.
  - destruct h as [[? ? ? ? ? ? ?] ? ? ? ?]; cbn in *; subst; discriminate.
Qed.

(** C8.  On a session whose resolution, depth mode and device index are
    set, [start_device] writes the two resolved settings into the
    configuration record (every other field of the record is kept), makes
    [self.device_config] refer to that record, and issues exactly one SDK
    call, [start_device(device_index, config)], with the configured index and
    that record.  If the SDK returns a device it becomes [self.device] and the
    method returns; if the SDK raises (no such hardware, device already
    claimed), the method raises that same exception and [self.device] is left
    as it was. *)
Theorem start_device_opens_configured_device
    (h : Heap) (r : k4a_color_resolution_t) (dm : k4a_depth_mode_t) (i : Z) :
  resolution (self h) = Some r ->
  depth_mode (self h) = Some dm ->
  device_index (self h) = Some i ->
  let cfg := Config.mk r dm (Config.other_settings (default_configuration h)) in
  let h' := after start_device h in
  Config.color_resolution (default_configuration h') = r /\
  Config.depth_mode (default_configuration h') = dm /\
  default_configuration h' = cfg /\
  device_config (self h') = Some default_configuration_ref /\
  calls h' = calls h ++ [CallStartDevice i cfg] /\
  sdk h' = snd (sdk_start_device i cfg (sdk h)) /\
  match fst (sdk_start_device i cfg (sdk h)) with
  | inr d => result start_device h = Returns tt /\ device (self h') = Some d
  | inl e => result start_device h = Raises (SdkError e) /\
             device (self h') = device (self h)
  end.
Proof.
  intros Hr Hdm Hi. cbn zeta. unfold after, result.
  rewrite (start_device_run h r dm i Hr Hdm Hi). cbn zeta.
  destruct (sdk_start_device _ _ _) as [[e|d] w]; cbn; repeat split; reflexivity.
Qed.

End Lifecycle.

Section Restart.
Context {K : PyKinect}.

(** Any sequence of setter calls can only write the two selection attributes
    and the standard output, and never unsets a selection. *)
Lemma select_touches (s : Selection) h :
  exists r dm out,
    after (select s) h =
      mkHeap (mkSelf (device_index (self h)) (resolution_map (self h))
                     (depth_mode_map (self h)) r dm
                     (device_config (self h)) (device (self h)))
             (default_configuration h) (sdk h) out (calls h) /\
    (is_Some (resolution (self h)) -> is_Some r) /\
    (is_Some (depth_mode (self h)) -> is_Some dm).
Proof.
  destruct s as [label|label]; cbn [select].
  - destruct (set_resolution_touches h label) as (r & out & E & Hr).
    exists r, (depth_mode (self h)), out. auto.
  - destruct (set_depth_mode_touches h label) as (dm & out & E & Hdm).
    exists (resolution (self h)), dm, out. auto.
Qed.

Lemma selections_touch (l : list Selection) : forall h,
  exists r dm out,
    after (selections l) h =
      mkHeap (mkSelf (device_index (self h)) (resolution_map (self h))
                     (depth_mode_map (self h)) r dm
                     (device_config (self h)) (device (self h)))
             (default_configuration h) (sdk h) out (calls h) /\
    (is_Some (resolution (self h)) -> is_Some r) /\
    (is_Some (depth_mode (self h)) -> is_Some dm).
Proof.
  induction l as [|s rest IH]; intros h.
  - exists (resolution (self h)), (depth_mode (self h)), (stdout h).
    destruct h as [[] ? ? ? ?]. cbn. auto.
  - destruct (select_touches s h) as (r1 & dm1 & out1 & E1 & Hr1 & Hdm1).
    unfold after in *. cbn [selections]. unfold bind.
    destruct (select s h) as [[[]|e] h1]; cbn [snd] in E1; subst h1.
    + match goal with |- context [selections rest ?h1] =>
        destruct (IH h1) as (r2 & dm2 & out2 & E2 & Hr2 & Hdm2)
      end.
      cbn in E2, Hr2, Hdm2. exists r2, dm2, out2. cbn. auto.
    + exists r1, dm1, out1. cbn. auto.
Qed.

(** C7.  Take any session on which [start_device] has returned, and let the
    client then call the two setters any number of times, with any labels.
    The configuration record still carries the resolution and depth mode that
    were selected when [start_device] ran; the record, the reference to it,
    the device handle and the state of the SDK are exactly what
    [start_device] left, and no SDK call has been issued.  The new selection
    is stored in the session and reaches the record only when [start_device]
    runs again. *)
Theorem selection_after_start_waits_for_restart
    (h h1 : Heap) (l : list Selection) :
  start_device h = (Returns tt, h1) ->
  let h2 := after (selections l) h1 in
  (exists r dm,
     resolution (self h) = Some r /\ depth_mode (self h) = Some dm /\
     Config.color_resolution (default_configuration h2) = r /\
     Config.depth_mode (default_configuration h2) = dm) /\
  default_configuration h2 = default_configuration h1 /\
  device_config (self h2) = device_config (self h1) /\
  device (self h2) = device (self h1) /\
  sdk h2 = sdk h1 /\
  calls h2 = calls h1 /\
  (exists r2 dm2,
     resolution (self h2) = Some r2 /\ depth_mode (self h2) = Some dm2 /\
     Config.color_resolution (default_configuration (after start_device h2)) = r2 /\
     Config.depth_mode (default_configuration (after start_device h2)) = dm2).
Proof.
  intros Hstart. cbn zeta.
  destruct (start_device_returns h h1 Hstart)
    as (r & dm & i & d & w & Hr & Hdm & Hi & Hsdk & ->).
  destruct (selections_touch l
              (mkHeap (with_device d (with_device_config default_configuration_ref (self h)))
                      (Config.mk r dm (Config.other_settings (default_configuration h)))
                      w (stdout h) (calls h ++ [CallStartDevice i
                         (Config.mk r dm (Config.other_settings (default_configuration h)))])))
    as (r2 & dm2 & out & E & Hr2 & Hdm2).
  rewrite E. cbn in Hr2, Hdm2 |- *.
  rewrite Hr in Hr2. rewrite Hdm in Hdm2.
  destruct Hr2 as [r2' ->]; [eauto|]. destruct Hdm2 as [dm2' ->]; [eauto|].
  split; [exists r, dm; auto|]. repeat (split; [reflexivity|]).
  exists r2', dm2'. split; [reflexivity|]. split; [reflexivity|].
  unfold after. erewrite start_device_run; [| reflexivity | reflexivity | cbn; exact Hi].
  clear Hstart Hsdk E.
  cbn. destruct (sdk_start_device _ _ _) as [[e|d'] w']; cbn; auto.
Qed.

End Restart.

Section Capture.
Context {K : PyKinect}.

(** ** What the three device methods do once [self.device] is set *)

Lemma param_run h d :
  device (self h) = Some d ->
  param h =
    match calibration_get_matrix d 1 (sdk h) with
    | (inl e, w1) =>
        (Raises (SdkError e),
         mkHeap (self h) (default_configuration h) w1 (stdout h)
                (calls h ++ [CallGetMatrix d 1]))
    | (inr matrix, w1) =>
        let log := calls h ++ [CallGetMatrix d 1; CallGetDistortion d] in
        match calibration_get_distortion d w1 with
        | (inl e, w2) =>
            (Raises (SdkError e),
             mkHeap (self h) (default_configuration h) w2 (stdout h) log)
        | (inr distortion, w2) =>
            (Returns (matrix, distortion),
             mkHeap (self h) (default_configuration h) w2 (stdout h) log)
        end
    end.
Proof.
  destruct h as [[i rm dmm r dm cfg dev] dc w out cs]. cbn. intros ->.
  unfold param, bind, getattr, sdk_call. cbn.
  destruct (calibration_get_matrix d 1 w) as [[e|matrix] w1]; [reflexivity|].
  cbn. destruct (calibration_get_distortion d w1) as [[e|distortion] w2];
    cbn; rewrite <- app_assoc; reflexivity.
Qed.

Lemma capture_loop_run h d :
  device (self h) = Some d ->
  capture_loop h =
    match Device_update d (sdk h) with
    | (inl e, w1) =>
        (Raises (SdkError e),
         mkHeap (self h) (default_configuration h) w1 (stdout h)
                (calls h ++ [CallUpdate d]))
    | (inr c, w1) =>
        match get_color_image c w1 with
        | (inl e, w2) =>
            (Raises (SdkError e),
             mkHeap (self h) (default_configuration h) w2 (stdout h)
                    (calls h ++ [CallUpdate d; CallGetColorImage c]))
        | (inr (ret_RGB, RGB_image), w2) =>
            let log := calls h ++ [CallUpdate d; CallGetColorImage c;
                                   CallGetTransformedDepthImage c] in
            match get_transformed_depth_image c w2 with
            | (inl e, w3) =>
                (Raises (SdkError e),
                 mkHeap (self h) (default_configuration h) w3 (stdout h) log)
            | (inr (ret_depth, depth_image), w3) =>
                (Returns (ret_RGB, RGB_image, ret_depth, depth_image),
                 mkHeap (self h) (default_configuration h) w3 (stdout h) log)
            end
        end
    end.
Proof.
  destruct h as [[i rm dmm r dm cfg dev] dc w out cs]. cbn. intros ->.
  unfold capture_loop, bind, getattr, sdk_call. cbn.
  destruct (Device_update d w) as [[e|c] w1]; [reflexivity|]. cbn.
  destruct (get_color_image c w1) as [[e|[ret_RGB RGB_image]] w2]; cbn;
    [rewrite <- app_assoc; reflexivity|].
  destruct (get_transformed_depth_image c w2) as [[e|[ret_depth depth_image]] w3];
    cbn; rewrite <- !app_assoc; reflexivity.
Qed.

Lemma close_device_run h d :
  device (self h) = Some d ->
  close_device h =
    let '(r, w) := Device_close d (sdk h) in
    (match r with inr _ => Returns tt | inl e => Raises (SdkError e) end,
     mkHeap (self h) (default_configuration h) w (stdout h)
            (calls h ++ [CallClose d])).
Proof.
  destruct h as [[i rm dmm r dm cfg dev] dc w out cs]. cbn. intros ->.
  unfold close_device, bind, getattr, sdk_call. cbn.
  destruct (Device_close d w) as [[e|[]] w1]; reflexivity.
Qed.

Lemma updates_app (log log' : list Call) :
  updates (log ++ log') = (updates log + updates log')%nat.
Proof. unfold updates. now rewrite List.filter_app, length_app. Qed.

(** Before [start_device]: constructed, selections possibly changed. *)
Lemma no_device_before_start h0 i r dm l :
  device (self (after (selections l) (after (new_KinectAzureModule i r dm) h0)))
  = None.
Proof.
  destruct (selections_touch l (after (new_KinectAzureModule i r dm) h0))
    as (r2 & dm2 & out & -> & _). cbn.
  apply constructed_has_no_device.
Qed.

End Capture.

Section Preconditions.
Context {K : PyKinect}.


(** C4, as the code has it.  On a session that has been constructed and not
    started, [capture_loop] raises [AttributeError] on the read of
    [self.device] and makes no SDK call.  [close_device] does not remove or
    mark [self.device]: after it, [capture_loop] does not fail that way.  It
    forwards to [update()] of the closed device, raises only if one of its
    three SDK calls raises (then with the SDK's exception), and returns the
    two pairs otherwise. *)
Theorem capture_loop_checks_only_the_attribute
    (h0 : Heap) (i : Z) (r dm : string) (l : list Selection) :
  (let h := after (selections l) (after (new_KinectAzureModule i r dm) h0) in
   capture_loop h = (Raises (AttributeError "device"), h)) /\
  (forall (hs : Heap) (d : Device),
     device (self hs) = Some d ->
     let hc := after close_device hs in
     device (self hc) = Some d /\
     calls hc = calls hs ++ [CallClose d] /\
     (forall e, fst (Device_update d (sdk hc)) = inl e ->
                result capture_loop hc = Raises (SdkError e)) /\
     (forall x, result capture_loop hc = Raises x -> exists e, x = SdkError e) /\
     (forall c w1 ret_RGB RGB_image w2 ret_depth depth_image w3,
        Device_update d (sdk hc) = (inr c, w1) ->
        get_color_image c w1 = (inr (ret_RGB, RGB_image), w2) ->
        get_transformed_depth_image c w2 = (inr (ret_depth, depth_image), w3) ->
        result capture_loop hc =
          Returns (ret_RGB, RGB_image, ret_depth, depth_image))).
Proof.
  split.
  - cbn zeta. unfold capture_loop.
    apply bind_raises, getattr_unset, no_device_before_start.
  - intros hs d Hd. cbn zeta. unfold after.
    rewrite (close_device_run hs d Hd).
    destruct (Device_close d (sdk hs)) as [rc wc]. cbn [snd self calls sdk].
    split; [exact Hd|]. split; [reflexivity|].
    unfold result. erewrite capture_loop_run by exact Hd. cbn [sdk].
    destruct (Device_update d wc) as [[e|c] w1].
    + cbn. repeat split.
      * now intros e' [= <-].
      * intros x [= <-]. eauto.
      * intros; discriminate.
    + destruct (get_color_image c w1) as [[e|[b1 i1]] w2] eqn:Ec.
      * cbn. repeat split; try discriminate.
        -- intros x [= <-]. eauto.
        -- intros c' w1' b1 i1 w2' b2 i2 w3 [= <- <-] E.
           rewrite Ec in E. discriminate.
      * destruct (get_transformed_depth_image c w2) as [[e|[b2 i2]] w3] eqn:Et.
        -- cbn. repeat split; try discriminate.
           ++ intros x [= <-]. eauto.
           ++ intros c' w1' b1' i1' w2' b2' i2' w3' [= <- <-] E1 E2.
              rewrite Ec in E1. injection E1 as <- <- <-.
              rewrite Et in E2. discriminate.
        -- cbn. repeat split; try discriminate.
           intros c' w1' b1' i1' w2' b2' i2' w3' [= <- <-] E1 E2.
           rewrite Ec in E1. injection E1 as <- <- <-.
           rewrite Et in E2. now injection E2 as <- <- <-.
Qed.

(** C5.  On a session whose device is set, when the SDK delivers a capture,
    [capture_loop] returns the flag and image of [get_color_image()] followed
    by the flag and image of [get_transformed_depth_image()] on that capture,
    each exactly as the accessor reported it, whatever the other accessor
    reported.  One update and the two accessor calls are all it issues. *)
Theorem capture_loop_returns_device_flags
    (h : Heap) (d : Device) (c : Capture)
    (ret_RGB ret_depth : bool) (RGB_image depth_image : Image) (w1 w2 w3 : W) :
  device (self h) = Some d ->
  Device_update d (sdk h) = (inr c, w1) ->
  get_color_image c w1 = (inr (ret_RGB, RGB_image), w2) ->
  get_transformed_depth_image c w2 = (inr (ret_depth, depth_image), w3) ->
  capture_loop h =
    (Returns (ret_RGB, RGB_image, ret_depth, depth_image),
     mkHeap (self h) (default_configuration h) w3 (stdout h)
            (calls h ++ [CallUpdate d; CallGetColorImage c;
                         CallGetTransformedDepthImage c])).
Proof.
  intros Hd Hu Hc Ht. rewrite (capture_loop_run h d Hd), Hu, Hc, Ht. reflexivity.
Qed.

(** C6.  Two calls in a row on a session whose device is set.  In the first
    the accessors report the flags [ok_RGB] and [ok_depth] (either may be
    [false]): [capture_loop] returns them with the images, does not raise, and
    has issued one update and no more (no retry).  In the second the device reports
    success for both images: [capture_loop] returns [true] with each image,
    again after a single update. *)
Theorem capture_failure_is_returned_not_retried
    (h : Heap) (d : Device) (c c' : Capture) (ok_RGB ok_depth : bool)
    (RGB_image depth_image RGB_image' depth_image' : Image)
    (w1 w2 w3 w4 w5 w6 : W) :
  device (self h) = Some d ->
  Device_update d (sdk h) = (inr c, w1) ->
  get_color_image c w1 = (inr (ok_RGB, RGB_image), w2) ->
  get_transformed_depth_image c w2 = (inr (ok_depth, depth_image), w3) ->
  Device_update d w3 = (inr c', w4) ->
  get_color_image c' w4 = (inr (true, RGB_image'), w5) ->
  get_transformed_depth_image c' w5 = (inr (true, depth_image'), w6) ->
  let h1 := after capture_loop h in
  let h2 := after capture_loop h1 in
  result capture_loop h = Returns (ok_RGB, RGB_image, ok_depth, depth_image) /\
  calls h1 = calls h ++ [CallUpdate d; CallGetColorImage c;
                         CallGetTransformedDepthImage c] /\
  updates (calls h1) = S (updates (calls h)) /\
  sdk h1 = w3 /\
  result capture_loop h1 = Returns (true, RGB_image', true, depth_image') /\
  calls h2 = calls h1 ++ [CallUpdate d; CallGetColorImage c';
                          CallGetTransformedDepthImage c'] /\
  updates (calls h2) = S (updates (calls h1)) /\
  sdk h2 = w6.
Proof.
  intros Hd Hu Hc Ht Hu' Hc' Ht'. cbn zeta. unfold after, result.
  rewrite (capture_loop_run h d Hd), Hu, Hc, Ht. cbn [fst snd calls sdk].
  erewrite capture_loop_run by exact Hd. cbn [sdk calls]. rewrite Hu', Hc', Ht'.
  cbn [fst snd calls sdk]. rewrite !updates_app. cbn [updates List.filter is_update length].
  repeat split; try reflexivity; lia.
Qed.

End Preconditions.

(** * The wrapper on the scripted device *)

Section OnTheScriptedDevice.
Local Existing Instance Mock.sdk.

Lemma fresh_is_constructed frames :
  new_KinectAzureModule 0 "1080P" "NFOV_2X2BINNED" (Mock.boot frames) =
    (Returns tt, Mock.fresh frames).
Proof. vm_compute. reflexivity. Qed.

Lemma started_is_started frames :
  start_device (Mock.fresh frames) = (Returns tt, Mock.started frames).
Proof. reflexivity. Qed.

Lemma set_resolution_selects_witness :
  resolution_map (self (Mock.fresh [])) = Some init_resolution_map /\
  exists h',
    set_resolution "4K" (Mock.fresh []) = (Returns tt, h') /\
    resolution (self h') = Some K4A_COLOR_RESOLUTION_1080P.
Proof.
  split; [reflexivity|].
  destruct (set_resolution_selects (Mock.fresh []) "4K" eq_refl)
    as (h' & E & _ & _ & _ & _ & _ & _ & _ & Hfb).
  exists h'. split; [exact E|]. apply Hfb.
  unfold supported_resolutions. rewrite !elem_of_cons, elem_of_nil.
  intuition discriminate.
Defined.

Lemma set_depth_mode_selects_witness :
  depth_mode_map (self (Mock.fresh [])) = Some init_depth_mode_map /\
  exists h',
    set_depth_mode "WFOV_UNBINNED" (Mock.fresh []) = (Returns tt, h') /\
    depth_mode (self h') = Some K4A_DEPTH_MODE_WFOV_UNBINNED.
Proof.
  split; [reflexivity|].
  destruct (set_depth_mode_selects (Mock.fresh []) "WFOV_UNBINNED" eq_refl)
    as (h' & E & _ & _ & _ & Hsel & _).
  exists h'. split; [exact E|]. apply Hsel. reflexivity.
Defined.

Lemma start_device_opens_configured_device_witness :
  resolution (self (Mock.fresh [])) = Some K4A_COLOR_RESOLUTION_1080P /\
  depth_mode (self (Mock.fresh [])) = Some K4A_DEPTH_MODE_NFOV_2X2BINNED /\
  device_index (self (Mock.fresh [])) = Some 0 /\
  default_configuration (after start_device (Mock.fresh [])) =
    Config.mk K4A_COLOR_RESOLUTION_1080P K4A_DEPTH_MODE_NFOV_2X2BINNED tt.
Proof.
  repeat (split; [reflexivity|]).
  apply (start_device_opens_configured_device (Mock.fresh [])
           K4A_COLOR_RESOLUTION_1080P K4A_DEPTH_MODE_NFOV_2X2BINNED 0);
    reflexivity.
Defined.

Lemma selection_after_start_waits_for_restart_witness :
  start_device (Mock.fresh []) = (Returns tt, Mock.started []) /\
  default_configuration
    (after (selections [SetResolution "720P"; SetDepthMode "PASSIVE_IR"])
           (Mock.started [])) =
  default_configuration (Mock.started []).
Proof.
  split; [reflexivity|].
  apply (selection_after_start_waits_for_restart (Mock.fresh []) (Mock.started [])
           [SetResolution "720P"; SetDepthMode "PASSIVE_IR"]).
  reflexivity.
Defined.



(** The scripted device keeps delivering frames after [close()], so the
    wrapper's [capture_loop] returns a frame on a closed session. *)
Lemma capture_loop_after_close_returns :
  result close_device (Mock.started [(true, true)]) = Returns tt /\
  result capture_loop (after close_device (Mock.started [(true, true)])) =
    Returns (true, Some 255, true, Some 1000) /\
  ~ (exists e,
       result capture_loop (after close_device (Mock.started [(true, true)])) =
         Raises e).
Proof.
  split; [reflexivity|]. split; [reflexivity|].
  intros [e He]. discriminate He.
Qed.

Lemma capture_loop_checks_only_the_attribute_witness :
  device (self (Mock.started [(true, true)])) = Some 0 /\
  capture_loop (Mock.fresh [(true, true)]) =
    (Raises (AttributeError "device"), Mock.fresh [(true, true)]) /\
  device (self (after close_device (Mock.started [(true, true)]))) = Some 0.
Proof.
  split; [reflexivity|].
  destruct (capture_loop_checks_only_the_attribute
              (Mock.boot [(true, true)]) 0 "1080P" "NFOV_2X2BINNED" [])
    as [Hbefore Hafter].
  split; [exact Hbefore|].
  apply (Hafter (Mock.started [(true, true)]) 0). reflexivity.
Defined.

Lemma capture_loop_returns_device_flags_witness :
  device (self (Mock.started [(true, false)])) = Some 0 /\
  result capture_loop (Mock.started [(true, false)]) =
    Returns (true, Some 255, false, None).
Proof.
  split; [reflexivity|]. unfold result.
  rewrite (capture_loop_returns_device_flags (Mock.started [(true, false)]) 0
             (true, false) true false (Some 255) None
             (Mock.mkWorld true true []) (Mock.mkWorld true true [])
             (Mock.mkWorld true true []));
    reflexivity.
Defined.

Lemma capture_failure_is_returned_not_retried_witness :
  device (self (Mock.started [(false, true); (true, true)])) = Some 0 /\
  result capture_loop (Mock.started [(false, true); (true, true)]) =
    Returns (false, None, true, Some 1000) /\
  result capture_loop
    (after capture_loop (Mock.started [(false, true); (true, true)])) =
    Returns (true, Some 255, true, Some 1000).
Proof.
  split; [reflexivity|].
  pose proof (capture_failure_is_returned_not_retried
                (Mock.started [(false, true); (true, true)]) 0
                (false, true) (true, true) false true
                None (Some 1000) (Some 255) (Some 1000)
                (Mock.mkWorld true true [(true, true)])
                (Mock.mkWorld true true [(true, true)])
                (Mock.mkWorld true true [(true, true)])
                (Mock.mkWorld true true []) (Mock.mkWorld true true [])
                (Mock.mkWorld true true [])
                eq_refl eq_refl eq_refl eq_refl eq_refl eq_refl eq_refl)
    as (H1 & _ & _ & _ & H2 & _).
  split; [exact H1 | exact H2].
Defined.

(** ** More runs *)

(** The failure of the SDK is the failure of [start_device]: no camera at
    index 3, and the camera at index 0 cannot be claimed twice. *)
Example start_device_without_hardware :
  result start_device (after (new_KinectAzureModule 3 "1080P" "PASSIVE_IR") (Mock.boot []))
  = Raises (SdkError Mock.DeviceUnavailable).
Proof. reflexivity. Qed.

Example start_device_already_claimed :
  result start_device (Mock.started []) = Raises (SdkError Mock.DeviceUnavailable).
Proof. reflexivity. Qed.

(** Every combination of the two flags comes back as the device reported
    it. *)
Example capture_loop_flags_are_independent (ok_RGB ok_depth : bool) :
  result capture_loop (Mock.started [(ok_RGB, ok_depth)]) =
    Returns (ok_RGB, Mock.image_of ok_RGB 255, ok_depth, Mock.image_of ok_depth 1000).
Proof. destruct ok_RGB, ok_depth; reflexivity. Qed.

(** A device whose second update delivers no colour image: three calls,
    three updates. *)
Example second_frame_fails :
  let h0 := Mock.started [(true, true); (false, true); (true, true)] in
  let h1 := after capture_loop h0 in
  let h2 := after capture_loop h1 in
  let h3 := after capture_loop h2 in
  result capture_loop h0 = Returns (true, Some 255, true, Some 1000) /\
  result capture_loop h1 = Returns (false, None, true, Some 1000) /\
  result capture_loop h2 = Returns (true, Some 255, true, Some 1000) /\
  updates (calls h3) = 3%nat.
Proof. repeat split; reflexivity. Qed.

(** Construction with two unknown labels. *)
Example construction_with_unknown_labels :
  let h := after (new_KinectAzureModule 0 "4K" "depth") (Mock.boot []) in
  result (new_KinectAzureModule 0 "4K" "depth") (Mock.boot []) = Returns tt /\
  resolution (self h) = Some K4A_COLOR_RESOLUTION_1080P /\
  depth_mode (self h) = Some K4A_DEPTH_MODE_NFOV_2X2BINNED /\
  stdout h = ["Invalid resolution. Defaulting to 1080P.";
              "Invalid depth mode. Defaulting to NFOV_2X2BINNED."].
Proof. repeat split; reflexivity. Qed.

End OnTheScriptedDevice.

(** * Further properties of the setters *)

Section Tables.
Context {K : PyKinect}.

Lemma set_resolution_init_run h label :
  resolution_map (self h) = Some init_resolution_map ->
  set_resolution label h =
    (Returns tt,
     mkHeap (with_resolution (resolve_resolution label) (self h))
            (default_configuration h) (sdk h)
            (stdout h ++ warning (SetResolution label)) (calls h)).
Proof.
  intros Hm. rewrite (set_resolution_run h _ label Hm).
  unfold resolve_resolution, warning.
  destruct (init_resolution_map !! label) as [v|] eqn:E.
  - rewrite (contains_true _ _ _ E), app_nil_r. reflexivity.
  - rewrite (contains_false _ _ E).
    replace (init_resolution_map !! "1080P") with (Some K4A_COLOR_RESOLUTION_1080P)
      by (rewrite init_resolution_map_lookup; reflexivity).
    reflexivity.
Qed.

Lemma set_depth_mode_init_run h label :
  depth_mode_map (self h) = Some init_depth_mode_map ->
  set_depth_mode label h =
    (Returns tt,
     mkHeap (with_depth_mode (resolve_depth_mode label) (self h))
            (default_configuration h) (sdk h)
            (stdout h ++ warning (SetDepthMode label)) (calls h)).
Proof.
  intros Hm. rewrite (set_depth_mode_run h _ label Hm).
  unfold resolve_depth_mode, warning.
  destruct (init_depth_mode_map !! label) as [v|] eqn:E.
  - rewrite (contains_true _ _ _ E), app_nil_r. reflexivity.
  - rewrite (contains_false _ _ E).
    replace (init_depth_mode_map !! "NFOV_2X2BINNED")
      with (Some K4A_DEPTH_MODE_NFOV_2X2BINNED)
      by (rewrite init_depth_mode_map_lookup; reflexivity).
    reflexivity.
Qed.

(** X1.  [set_resolution] looks the label up in the table the session
    carries at the time of the call: once a client has put an entry
    [label -> v] into [self.resolution_map], [set_resolution] called with
    that label stores [v] in [self.resolution], prints nothing and returns.
    Nothing is asked of the depth-mode table. *)
Theorem set_resolution_selects_added_entry
    (h : Heap) (label : string)
    (m : gmap string k4a_color_resolution_t) (v : k4a_color_resolution_t) :
  resolution_map (self h) = Some (<[label := v]> m) ->
  set_resolution label h =
    (Returns tt,
     mkHeap (with_resolution v (self h)) (default_configuration h) (sdk h)
            (stdout h) (calls h)).
Proof.
  intros Hm.
  rewrite (set_resolution_run h _ label Hm), lookup_insert_eq. reflexivity.
Qed.

(** X19.  [set_depth_mode] looks the label up in the table the session
    carries at the time of the call: once a client has put an entry
    [label -> v] into [self.depth_mode_map], [set_depth_mode] called with
    that label stores [v] in [self.depth_mode], prints nothing and returns.
    Nothing is asked of the resolution table. *)
Theorem set_depth_mode_selects_added_entry
    (h : Heap) (label : string)
    (m : gmap string k4a_depth_mode_t) (v : k4a_depth_mode_t) :
  depth_mode_map (self h) = Some (<[label := v]> m) ->
  set_depth_mode label h =
    (Returns tt,
     mkHeap (with_depth_mode v (self h)) (default_configuration h) (sdk h)
            (stdout h) (calls h)).
Proof.
  intros Hm.
  rewrite (set_depth_mode_run h _ label Hm), lookup_insert_eq. reflexivity.
Qed.

(** X2.  The fallback of [set_resolution] is itself a table lookup.  On a
    session whose resolution table has neither the label nor the key "1080P",
    [set_resolution] prints the warning and then raises [KeyError] for
    "1080P", leaving [self.resolution] as it was.  Nothing is asked of the
    depth-mode table. *)
Theorem set_resolution_fallback_needs_its_key
    (h : Heap) (label : string) (m : gmap string k4a_color_resolution_t) :
  resolution_map (self h) = Some m ->
  m !! label = None ->
  m !! "1080P" = None ->
  set_resolution label h =
    (Raises (KeyError "1080P"),
     mkHeap (self h) (default_configuration h) (sdk h)
            (stdout h ++ ["Invalid resolution. Defaulting to 1080P."])
            (calls h)).
Proof.
  intros Hm E1 E2.
  rewrite (set_resolution_run h _ label Hm), E1, E2. reflexivity.
Qed.

(** X20.  The fallback of [set_depth_mode] is itself a table lookup.  On a
    session whose depth-mode table has neither the label nor the key
    "NFOV_2X2BINNED", [set_depth_mode] prints the warning and then raises
    [KeyError] for "NFOV_2X2BINNED", leaving [self.depth_mode] as it was.
    Nothing is asked of the resolution table. *)
Theorem set_depth_mode_fallback_needs_its_key
    (h : Heap) (label : string) (m : gmap string k4a_depth_mode_t) :
  depth_mode_map (self h) = Some m ->
  m !! label = None ->
  m !! "NFOV_2X2BINNED" = None ->
  set_depth_mode label h =
    (Raises (KeyError "NFOV_2X2BINNED"),
     mkHeap (self h) (default_configuration h) (sdk h)
            (stdout h ++ ["Invalid depth mode. Defaulting to NFOV_2X2BINNED."])
            (calls h)).
Proof.
  intros Hm E1 E2.
  rewrite (set_depth_mode_run h _ label Hm), E1, E2. reflexivity.
Qed.

Lemma select_init_run (s : Selection) h :
  resolution_map (self h) = Some init_resolution_map ->
  depth_mode_map (self h) = Some init_depth_mode_map ->
  select s h =
    (Returns tt,
     mkHeap match s with
            | SetResolution label =>
                with_resolution (resolve_resolution label) (self h)
            | SetDepthMode label =>
                with_depth_mode (resolve_depth_mode label) (self h)
            end
            (default_configuration h) (sdk h) (stdout h ++ warning s) (calls h)).
Proof.
  intros Hr Hd. destruct s as [label|label]; cbn [select].
  - now apply set_resolution_init_run.
  - now apply set_depth_mode_init_run.
Qed.

Lemma selections_init_run (l : list Selection) (h : Heap) :
  resolution_map (self h) = Some init_resolution_map ->
  depth_mode_map (self h) = Some init_depth_mode_map ->
  let h' := after (selections l) h in
  result (selections l) h = Returns tt /\
  resolution (self h') =
    match last_resolution l with
    | Some label => Some (resolve_resolution label)
    | None => resolution (self h)
    end /\
  depth_mode (self h') =
    match last_depth_mode l with
    | Some label => Some (resolve_depth_mode label)
    | None => depth_mode (self h)
    end /\
  stdout h' = stdout h ++ warnings l.
Proof.
  revert h. induction l as [|s rest IH]; intros h Hr Hd; cbn zeta.
  - cbn. rewrite app_nil_r. auto.
  - unfold after, result. cbn [selections].
    rewrite (bind_returns _ _ _ _ _ (select_init_run s h Hr Hd)).
    match goal with |- context [selections rest ?h1] =>
      destruct (IH h1) as (Hres & Hsel & Hdm & Hout)
    end.
    { destruct s; exact Hr. }
    { destruct s; exact Hd. }
    unfold after, result in Hres, Hsel, Hdm, Hout.
    split; [exact Hres|]. rewrite Hsel, Hdm, Hout. cbn [last_resolution last_depth_mode].
    split; [|split].
    + destruct (last_resolution rest); [reflexivity|]. destruct s; reflexivity.
    + destruct (last_depth_mode rest); [reflexivity|]. destruct s; reflexivity.
    + cbn [stdout warnings flat_map]. now rewrite app_assoc.
Qed.

(** X3.  On a session that carries the tables of [__init__], a sequence of
    setter calls never raises; afterwards [self.resolution] is what the last
    [set_resolution] label resolves to (or is unchanged when there was none),
    likewise [self.depth_mode], and the warnings of the unsupported labels
    have been printed in call order. *)
Theorem selections_last_write_wins (l : list Selection) (h : Heap) :
  resolution_map (self h) = Some init_resolution_map ->
  depth_mode_map (self h) = Some init_depth_mode_map ->
  let h' := after (selections l) h in
  result (selections l) h = Returns tt /\
  resolution (self h') =
    match last_resolution l with
    | Some label => Some (resolve_resolution label)
    | None => resolution (self h)
    end /\
  depth_mode (self h') =
    match last_depth_mode l with
    | Some label => Some (resolve_depth_mode label)
    | None => depth_mode (self h)
    end /\
  stdout h' = stdout h ++ warnings l.
Proof. exact (selections_init_run l h). Qed.

(** X4.  On a session that carries the tables of [__init__], the order of
    the two setters does not matter for the session: [set_resolution a] then
    [set_depth_mode b] and the two calls the other way round both return and
    leave the same object; the same lines are printed, in call order. *)
Theorem setters_commute (h : Heap) (a b : string) :
  resolution_map (self h) = Some init_resolution_map ->
  depth_mode_map (self h) = Some init_depth_mode_map ->
  let h1 := after (selections [SetResolution a; SetDepthMode b]) h in
  let h2 := after (selections [SetDepthMode b; SetResolution a]) h in
  result (selections [SetResolution a; SetDepthMode b]) h = Returns tt /\
  result (selections [SetDepthMode b; SetResolution a]) h = Returns tt /\
  self h1 = self h2 /\
  stdout h1 = stdout h ++ warning (SetResolution a) ++ warning (SetDepthMode b) /\
  stdout h2 = stdout h ++ warning (SetDepthMode b) ++ warning (SetResolution a).
Proof.
  intros Hr Hd. cbn zeta.
  assert (forall s s' : Selection,
            selections [s; s'] h =
            select s' (snd (select s h))) as Hrun.
  { intros s s'. cbn [selections].
    rewrite (bind_returns _ _ _ _ _ (select_init_run s h Hr Hd)).
    erewrite bind_returns by (apply select_init_run; destruct s; assumption).
    cbn [ret]. rewrite (select_init_run s h Hr Hd). cbn [snd].
    symmetry. apply select_init_run; destruct s; assumption. }
  unfold after, result. rewrite !Hrun.
  rewrite (select_init_run (SetResolution a) h Hr Hd).
  rewrite (select_init_run (SetDepthMode b) h Hr Hd). cbn [snd].
  erewrite !select_init_run by assumption.
  cbn. rewrite <- !app_assoc. repeat split; reflexivity.
Qed.

End Tables.

(** * Further properties of the device methods *)

Section Sessions.
Context {K : PyKinect}.

Lemma resolve_resolution_in_table label :
  exists key, init_resolution_map !! key = Some (resolve_resolution label).
Proof.
  unfold resolve_resolution.
  destruct (init_resolution_map !! label) as [v|] eqn:E; [eauto|].
  exists "1080P". rewrite init_resolution_map_lookup. reflexivity.
Qed.

Lemma resolve_depth_mode_in_table label :
  exists key, init_depth_mode_map !! key = Some (resolve_depth_mode label).
Proof.
  unfold resolve_depth_mode.
  destruct (init_depth_mode_map !! label) as [v|] eqn:E; [eauto|].
  exists "NFOV_2X2BINNED". rewrite init_depth_mode_map_lookup. reflexivity.
Qed.

(** Construction, with the values it resolves. *)
Lemma construction_resolved_run h i r d :
  new_KinectAzureModule i r d h =
    sdk_call CallInitializeLibraries initialize_libraries
      (mkHeap (mkSelf (Some i) (Some init_resolution_map)
                      (Some init_depth_mode_map)
                      (Some (resolve_resolution r)) (Some (resolve_depth_mode d))
                      None None)
              (default_configuration h) (sdk h)
              (stdout h ++ warning (SetResolution r) ++ warning (SetDepthMode d))
              (calls h)).
Proof.
  unfold new_KinectAzureModule, __init__.
  do 4 (unfold bind at 1; cbn [update_self]).
  erewrite bind_returns by (apply set_resolution_init_run; reflexivity).
  erewrite bind_returns by (apply set_depth_mode_init_run; reflexivity).
  cbn. rewrite <- app_assoc. reflexivity.
Qed.

(** The three device methods write neither the session object, nor the
    configuration record, nor the standard output. *)
Lemma param_frame h :
  exists w more,
    after param h =
      mkHeap (self h) (default_configuration h) w (stdout h) (calls h ++ more).
Proof.
  unfold after. destruct (device (self h)) as [d|] eqn:Hd.
  - rewrite (param_run h d Hd).
    destruct (calibration_get_matrix d 1 (sdk h)) as [[e|m] w1]; [cbn; eauto|].
    cbn zeta. destruct (calibration_get_distortion d w1) as [[e|k] w2]; cbn; eauto.
  - unfold param. rewrite (bind_raises _ _ h (AttributeError "device") h)
      by now apply getattr_unset.
    exists (sdk h), []. rewrite app_nil_r. now destruct h.
Qed.

Lemma capture_loop_frame h :
  exists w more,
    after capture_loop h =
      mkHeap (self h) (default_configuration h) w (stdout h) (calls h ++ more).
Proof.
  unfold after. destruct (device (self h)) as [d|] eqn:Hd.
  - rewrite (capture_loop_run h d Hd).
    destruct (Device_update d (sdk h)) as [[e|c] w1]; [cbn; eauto|].
    destruct (get_color_image c w1) as [[e|[b1 i1]] w2]; [cbn; eauto|].
    cbn zeta.
    destruct (get_transformed_depth_image c w2) as [[e|[b2 i2]] w3]; cbn; eauto.
  - unfold capture_loop. rewrite (bind_raises _ _ h (AttributeError "device") h)
      by now apply getattr_unset.
    exists (sdk h), []. rewrite app_nil_r. now destruct h.
Qed.

Lemma close_device_frame h :
  exists w more,
    after close_device h =
      mkHeap (self h) (default_configuration h) w (stdout h) (calls h ++ more).
Proof.
  unfold after. destruct (device (self h)) as [d|] eqn:Hd.
  - rewrite (close_device_run h d Hd).
    destruct (Device_close d (sdk h)) as [rc w]. cbn. eauto.
  - unfold close_device. rewrite (bind_raises _ _ h (AttributeError "device") h)
      by now apply getattr_unset.
    exists (sdk h), []. rewrite app_nil_r. now destruct h.
Qed.

(** The SDK calls each device method adds to the log. *)
Lemma param_calls h :
  exists more,
    calls (after param h) = calls h ++ more /\
    forallb is_calibration_call more = true.
Proof.
  unfold after. destruct (device (self h)) as [d|] eqn:Hd.
  - rewrite (param_run h d Hd).
    destruct (calibration_get_matrix d 1 (sdk h)) as [[e|m] w1];
      [cbn; eexists; split; reflexivity|].
    cbn zeta. destruct (calibration_get_distortion d w1) as [[e|k] w2];
      cbn; eexists; split; reflexivity.
  - unfold param. rewrite (bind_raises _ _ h (AttributeError "device") h)
      by now apply getattr_unset.
    exists []. rewrite app_nil_r. auto.
Qed.

Lemma capture_loop_calls h :
  exists more,
    calls (after capture_loop h) = calls h ++ more /\
    forallb is_capture_call more = true.
Proof.
  unfold after. destruct (device (self h)) as [d|] eqn:Hd.
  - rewrite (capture_loop_run h d Hd).
    destruct (Device_update d (sdk h)) as [[e|c] w1];
      [cbn; eexists; split; reflexivity|].
    destruct (get_color_image c w1) as [[e|[b1 i1]] w2];
      [cbn; eexists; split; reflexivity|].
    cbn zeta.
    destruct (get_transformed_depth_image c w2) as [[e|[b2 i2]] w3];
      cbn; eexists; split; reflexivity.
  - unfold capture_loop. rewrite (bind_raises _ _ h (AttributeError "device") h)
      by now apply getattr_unset.
    exists []. rewrite app_nil_r. auto.
Qed.

Lemma close_device_calls h :
  exists more,
    calls (after close_device h) = calls h ++ more /\
    forallb is_close more = true /\ (length more <= 1)%nat.
Proof.
  unfold after. destruct (device (self h)) as [d|] eqn:Hd.
  - rewrite (close_device_run h d Hd).
    destruct (Device_close d (sdk h)) as [rc w]. cbn.
    eexists. split; [reflexivity|]. cbn. auto.
  - unfold close_device. rewrite (bind_raises _ _ h (AttributeError "device") h)
      by now apply getattr_unset.
    exists []. rewrite app_nil_r. cbn. auto.
Qed.

(** X5.  [param], [capture_loop] and [close_device] never assign an attribute
    of the session and never call any SDK operation but their own.  On every
    heap, whether they return or raise, the session object is as before, and
    what they have added to the log of SDK calls is: for [param], calibration
    accessor calls only; for [capture_loop], update and image accessor calls
    only; for [close_device], at most one close. *)
Theorem device_methods_leave_the_session (h : Heap) :
  (self (after param h) = self h /\
   exists more, calls (after param h) = calls h ++ more /\
                forallb is_calibration_call more = true) /\
  (self (after capture_loop h) = self h /\
   exists more, calls (after capture_loop h) = calls h ++ more /\
                forallb is_capture_call more = true) /\
  (self (after close_device h) = self h /\
   exists more, calls (after close_device h) = calls h ++ more /\
                forallb is_close more = true /\ (length more <= 1)%nat).
Proof.
  split; [|split]; (split; [|]).
  - destruct (param_frame h) as (w & more & ->). reflexivity.
  - apply param_calls.
  - destruct (capture_loop_frame h) as (w & more & ->). reflexivity.
  - apply capture_loop_calls.
  - destruct (close_device_frame h) as (w & more & ->). reflexivity.
  - apply close_device_calls.
Qed.

(** ** What every reachable session satisfies *)

Lemma run_op_invariant i o h :
  configured i h -> started_by i h ->
  configured i (run_op o h) /\ started_by i (run_op o h).
Proof.
  intros (Hi & Hrm & Hdmm & (k1 & v1 & Hk1 & Hr) & (k2 & v2 & Hk2 & Hdm)) Hs.
  destruct o as [label|label| | | |]; cbn [run_op].
  - unfold after. rewrite (set_resolution_init_run h label Hrm). cbn [snd].
    split.
    + unfold configured. cbn. destruct (resolve_resolution_in_table label) as [k Hk].
      repeat split; eauto.
    + intros d Hd. cbn in Hd |- *. exact (Hs d Hd).
  - unfold after. rewrite (set_depth_mode_init_run h label Hdmm). cbn [snd].
    split.
    + unfold configured. cbn. destruct (resolve_depth_mode_in_table label) as [k Hk].
      repeat split; eauto.
    + intros d Hd. cbn in Hd |- *. exact (Hs d Hd).
  - unfold after. rewrite (start_device_run h v1 v2 i Hr Hdm Hi). cbn zeta.
    destruct (sdk_start_device _ _ _) as [[e|d] w]; cbn [snd]; split.
    + unfold configured. cbn. repeat split; eauto.
    + intros d Hd. cbn in Hd |- *. destruct (Hs d Hd) as [_ [cfg Hin]].
      split; [reflexivity|]. exists cfg. apply elem_of_app. auto.
    + unfold configured. cbn. repeat split; eauto.
    + intros d' Hd. cbn. split; [reflexivity|].
      eexists. apply elem_of_app. right. apply list_elem_of_singleton. reflexivity.
  - destruct (param_frame h) as (w & more & ->). split.
    + unfold configured. cbn. repeat split; eauto.
    + intros d Hd. cbn in Hd |- *. destruct (Hs d Hd) as [Hc [cfg Hin]].
      split; [exact Hc|]. exists cfg. apply elem_of_app. auto.
  - destruct (capture_loop_frame h) as (w & more & ->). split.
    + unfold configured. cbn. repeat split; eauto.
    + intros d Hd. cbn in Hd |- *. destruct (Hs d Hd) as [Hc [cfg Hin]].
      split; [exact Hc|]. exists cfg. apply elem_of_app. auto.
  - destruct (close_device_frame h) as (w & more & ->). split.
    + unfold configured. cbn. repeat split; eauto.
    + intros d Hd. cbn in Hd |- *. destruct (Hs d Hd) as [Hc [cfg Hin]].
      split; [exact Hc|]. exists cfg. apply elem_of_app. auto.
Qed.

Lemma run_ops_invariant i l : forall h,
  configured i h -> started_by i h ->
  configured i (run_ops l h) /\ started_by i (run_ops l h).
Proof.
  induction l as [|o rest IH]; intros h Hc Hs; [auto|].
  cbn [run_ops fold_left].
  destruct (run_op_invariant i o h Hc Hs) as [Hc' Hs'].
  exact (IH _ Hc' Hs').
Qed.

Lemma constructed_is_configured h0 i r d :
  configured i (after (new_KinectAzureModule i r d) h0) /\
  started_by i (after (new_KinectAzureModule i r d) h0).
Proof.
  unfold after. rewrite construction_resolved_run. unfold sdk_call.
  cbn [sdk self default_configuration stdout calls].
  destruct (resolve_resolution_in_table r) as [k1 Hk1].
  destruct (resolve_depth_mode_in_table d) as [k2 Hk2].
  assert (forall w log,
            configured i
              (mkHeap (mkSelf (Some i) (Some init_resolution_map)
                              (Some init_depth_mode_map)
                              (Some (resolve_resolution r))
                              (Some (resolve_depth_mode d)) None None)
                      (default_configuration h0) w
                      (stdout h0 ++ warning (SetResolution r) ++
                       warning (SetDepthMode d)) log)) as Hc.
  { intros w log. unfold configured. cbn [self device_index resolution_map
      depth_mode_map resolution depth_mode].
    split; [reflexivity|]. split; [reflexivity|]. split; [reflexivity|].
    split; eauto. }
  destruct (initialize_libraries (sdk h0)) as [[e|[]] w]; cbn [snd];
    (split; [apply Hc | intros dev Hdev; discriminate Hdev]).
Qed.

(** X6.  Whatever methods a client calls on a constructed session, in any
    order and with any labels, and whether or not they raise: the device
    index stays the one given to the constructor, both tables stay the ones
    [__init__] built, the two selection attributes hold values of their
    tables, and whenever [self.device] is set, [self.device_config] refers to
    the configuration record and the SDK has been asked to start the device
    at that index. *)
Theorem session_invariant
    (h0 : Heap) (i : Z) (r d : string) (l : list Op) :
  let h := run_ops l (after (new_KinectAzureModule i r d) h0) in
  configured i h /\
  (forall dev, device (self h) = Some dev ->
     device_config (self h) = Some default_configuration_ref /\
     exists cfg, CallStartDevice i cfg ∈ calls h).
Proof.
  cbn zeta. destruct (constructed_is_configured h0 i r d) as [Hc Hs].
  exact (run_ops_invariant i l _ Hc Hs).
Qed.

End Sessions.

Section EndToEnd.
Context {K : PyKinect}.

Lemma constructed_heap h0 i r d :
  exists w out log,
    after (new_KinectAzureModule i r d) h0 =
      mkHeap (mkSelf (Some i) (Some init_resolution_map)
                     (Some init_depth_mode_map)
                     (Some (resolve_resolution r)) (Some (resolve_depth_mode d))
                     None None)
             (default_configuration h0) w out log.
Proof.
  unfold after. rewrite construction_resolved_run. unfold sdk_call.
  cbn [sdk self default_configuration stdout calls].
  destruct (initialize_libraries (sdk h0)) as [[e|[]] w]; cbn [snd]; eauto.
Qed.

(** X7.  From the labels to the SDK call.  Construct a session with index
    [i] and labels [r] and [d], call the setters any number of times, then
    [start_device]: the SDK is asked exactly once to start the device at
    index [i] with a record whose resolution is what the last resolution
    label resolves to ([r] if the setter was never called), whose depth mode
    is what the last depth-mode label resolves to, and whose other fields are
    those of the default configuration.  The method raises only if that SDK
    call does. *)
Theorem labels_reach_the_sdk
    (h0 : Heap) (i : Z) (r d : string) (l : list Selection) :
  let h := after (selections l) (after (new_KinectAzureModule i r d) h0) in
  let cfg :=
    Config.mk (resolve_resolution (default r (last_resolution l)))
              (resolve_depth_mode (default d (last_depth_mode l)))
              (Config.other_settings (default_configuration h0)) in
  calls (after start_device h) = calls h ++ [CallStartDevice i cfg] /\
  result start_device h =
    match fst (sdk_start_device i cfg (sdk h)) with
    | inr _ => Returns tt
    | inl e => Raises (SdkError e)
    end.
Proof.
  cbn zeta.
  destruct (constructed_heap h0 i r d) as (w & out & log & E). rewrite E.
  match goal with |- context [after (selections l) ?h1] =>
    destruct (selections_init_run l h1 eq_refl eq_refl) as (_ & Hr & Hd & _);
    destruct (selections_touch l h1) as (r2 & dm2 & out2 & E2 & _)
  end.
  cbn zeta in Hr, Hd. rewrite E2 in Hr, Hd |- *. cbn in Hr, Hd.
  assert (r2 = Some (resolve_resolution (default r (last_resolution l)))) as ->
    by (rewrite Hr; destruct (last_resolution l); reflexivity).
  assert (dm2 = Some (resolve_depth_mode (default d (last_depth_mode l)))) as ->
    by (rewrite Hd; destruct (last_depth_mode l); reflexivity).
  unfold after, result.
  erewrite start_device_run by reflexivity.
  cbn [default_configuration sdk calls Config.other_settings].
  destruct (sdk_start_device _ _ _) as [[e|dev] w']; cbn; auto.
Qed.

(** X8.  [param] stops at the first SDK call that raises.  If
    [get_matrix(1)] raises, [param] raises that exception and
    [get_distortion()] is never called; if [get_distortion()] raises, [param]
    raises that exception and the matrix already obtained is not returned. *)
Theorem param_stops_at_first_failure (h : Heap) (d : Device) :
  device (self h) = Some d ->
  (forall e w,
     calibration_get_matrix d 1 (sdk h) = (inl e, w) ->
     param h =
       (Raises (SdkError e),
        mkHeap (self h) (default_configuration h) w (stdout h)
               (calls h ++ [CallGetMatrix d 1]))) /\
  (forall matrix w e w',
     calibration_get_matrix d 1 (sdk h) = (inr matrix, w) ->
     calibration_get_distortion d w = (inl e, w') ->
     param h =
       (Raises (SdkError e),
        mkHeap (self h) (default_configuration h) w' (stdout h)
               (calls h ++ [CallGetMatrix d 1; CallGetDistortion d]))).
Proof.
  intros Hd. split.
  - intros e w E. rewrite (param_run h d Hd), E. reflexivity.
  - intros matrix w e w' E E'. rewrite (param_run h d Hd), E. cbn zeta.
    rewrite E'. reflexivity.
Qed.

(** X9.  [capture_loop] stops at the first SDK call that raises.  If
    [update()] raises, no image accessor is called; if [get_color_image()]
    raises, [get_transformed_depth_image()] is not called; if the depth
    accessor raises, the colour image already obtained is not returned.  In
    each case the SDK's exception is what [capture_loop] raises. *)
Theorem capture_loop_stops_at_first_failure (h : Heap) (d : Device) :
  device (self h) = Some d ->
  (forall e w,
     Device_update d (sdk h) = (inl e, w) ->
     capture_loop h =
       (Raises (SdkError e),
        mkHeap (self h) (default_configuration h) w (stdout h)
               (calls h ++ [CallUpdate d]))) /\
  (forall c w e w',
     Device_update d (sdk h) = (inr c, w) ->
     get_color_image c w = (inl e, w') ->
     capture_loop h =
       (Raises (SdkError e),
        mkHeap (self h) (default_configuration h) w' (stdout h)
               (calls h ++ [CallUpdate d; CallGetColorImage c]))) /\
  (forall c w color w' e w'',
     Device_update d (sdk h) = (inr c, w) ->
     get_color_image c w = (inr color, w') ->
     get_transformed_depth_image c w' = (inl e, w'') ->
     capture_loop h =
       (Raises (SdkError e),
        mkHeap (self h) (default_configuration h) w'' (stdout h)
               (calls h ++ [CallUpdate d; CallGetColorImage c;
                            CallGetTransformedDepthImage c]))).
Proof.
  intros Hd. repeat split.
  - intros e w E. rewrite (capture_loop_run h d Hd), E. reflexivity.
  - intros c w e w' E E'. rewrite (capture_loop_run h d Hd), E, E'. reflexivity.
  - intros c w [b img] w' e w'' E E' E''.
    rewrite (capture_loop_run h d Hd), E, E'. cbn zeta. rewrite E''. reflexivity.
Qed.

(** X10.  [close_device] keeps no record of having run.  Without a device
    attribute it raises [AttributeError] and calls nothing.  With one, every
    call forwards [close()] to the same handle: two calls in a row issue two
    SDK closes, [self.device] still holds the handle afterwards, and the
    outcome of the second call is whatever the SDK answers to it. *)
Theorem close_device_is_forwarded_every_time (h : Heap) :
  (device (self h) = None ->
   close_device h = (Raises (AttributeError "device"), h)) /\
  (forall d, device (self h) = Some d ->
     let h1 := after close_device h in
     let h2 := after close_device h1 in
     device (self h2) = Some d /\
     calls h2 = calls h ++ [CallClose d; CallClose d] /\
     result close_device h1 =
       match fst (Device_close d (sdk h1)) with
       | inr _ => Returns tt
       | inl e => Raises (SdkError e)
       end).
Proof.
  split.
  - intros Hd. unfold close_device. now apply bind_raises, getattr_unset.
  - intros d Hd. cbn zeta. unfold after, result.
    rewrite (close_device_run h d Hd).
    destruct (Device_close d (sdk h)) as [r1 w1]. cbn [snd].
    erewrite close_device_run by exact Hd. cbn [sdk calls].
    destruct (Device_close d w1) as [[e|[]] w2]; cbn;
      rewrite <- app_assoc; auto.
Qed.

(** X11.  [param] after [close_device] is still forwarded.  The handle is
    still in [self.device], so the next thing [param] does after the close is
    to ask that same handle for the matrix of camera 1; when the two
    accessors return on the closed device, [param] returns their pair. *)
Theorem param_after_close_is_forwarded (h : Heap) (d : Device) :
  device (self h) = Some d ->
  let hc := after close_device h in
  device (self hc) = Some d /\
  (exists more,
     calls (after param hc) =
       calls h ++ [CallClose d; CallGetMatrix d 1] ++ more) /\
  (forall matrix w distortion w',
     calibration_get_matrix d 1 (sdk hc) = (inr matrix, w) ->
     calibration_get_distortion d w = (inr distortion, w') ->
     result param hc = Returns (matrix, distortion)).
Proof.
  intros Hd. cbn zeta. unfold after, result.
  rewrite (close_device_run h d Hd).
  destruct (Device_close d (sdk h)) as [rc wc]. cbn [snd sdk self].
  split; [exact Hd|].
  erewrite param_run by exact Hd. cbn [sdk calls]. split.
  - destruct (calibration_get_matrix d 1 wc) as [[e|m] w1]; cbn [snd calls].
    + exists []. rewrite <- app_assoc. reflexivity.
    + cbn zeta.
      destruct (calibration_get_distortion d w1) as [[e|k] w2]; cbn [snd calls];
        exists [CallGetDistortion d]; rewrite <- app_assoc; reflexivity.
  - intros matrix w distortion w' E E'. rewrite E. cbn zeta. rewrite E'.
    reflexivity.
Qed.

(** X12.  Sessions share one configuration record.  [start_device] stores
    the module-level [pykinect.default_configuration] itself in
    [self.device_config] and writes into it.  So when another session of the
    same process runs [start_device], a session started earlier is not
    touched as an object, yet the record its [device_config] refers to now
    carries the other session's resolution and depth mode. *)
Theorem sessions_share_the_configuration_record
    (h : Heap) (other : KinectAzureModule)
    (r : k4a_color_resolution_t) (dm : k4a_depth_mode_t) (i : Z) :
  device_config (self h) = Some default_configuration_ref ->
  resolution other = Some r ->
  depth_mode other = Some dm ->
  device_index other = Some i ->
  let h' := with_self (self h) (after start_device (with_self other h)) in
  self h' = self h /\
  result read_device_config h' =
    Returns (Config.mk r dm (Config.other_settings (default_configuration h))).
Proof.
  intros Hc Hr Hdm Hi. cbn zeta. split; [reflexivity|].
  unfold result, read_device_config.
  erewrite bind_returns by (apply getattr_set; exact Hc).
  unfold after. erewrite start_device_run; [| exact Hr | exact Hdm | exact Hi].
  cbn [with_self default_configuration sdk].
  destruct (sdk_start_device _ _ _) as [[e|d] w]; reflexivity.
Qed.

End EndToEnd.

(** * The demonstration script *)

Section ScriptProperties.
Context {K : PyKinect} {CV : OpenCV}.

Lemma sbind_done {A B} (m : Run A) (k : A -> Run B) p a p' :
  m p = (Done a, p') -> sbind m k p = k a p'.
Proof. intros E. unfold sbind. now rewrite E. Qed.

Lemma sbind_failed {A B} (m : Run A) (k : A -> Run B) p e p' :
  m p = (Failed e, p') -> sbind m k p = (Failed e, p').
Proof. intros E. unfold sbind. now rewrite E. Qed.

Lemma call_returns {A} (m : M A) p a h :
  m (heap p) = (Returns a, h) ->
  call m p = (Done a, mkProcess h (gui p) (gui_calls p)).
Proof. intros E. unfold call. now rewrite E. Qed.

Lemma call_raises {A} (m : M A) p e h :
  m (heap p) = (Raises e, h) ->
  call m p = (Failed (WrapperRaised e), mkProcess h (gui p) (gui_calls p)).
Proof. intros E. unfold call. now rewrite E. Qed.

Lemma closes_app (log log' : list Call) :
  closes (log ++ log') = (closes log + closes log')%nat.
Proof. unfold closes. now rewrite List.filter_app, length_app. Qed.

(** X13.  The quit test looks at the low byte of the key code only: the loop
    is left exactly when the code returned by [waitKey] is 113 (the letter q)
    modulo 256.  Bits above the low byte do not matter, and -1, the code for
    no key, does not quit. *)
Theorem quit_key_is_the_low_byte (key : Z) :
  quit_requested key = true <-> key mod 256 = 113.
Proof.
  unfold quit_requested. change 255 with (Z.ones 8).
  rewrite Z.land_ones by lia. change (2 ^ 8) with 256. apply Z.eqb_eq.
Qed.

(** A frame with a failed image: nothing is shown and the keyboard is not
    polled. *)
Lemma pass_skips p d c w1 ret_rgb color_img w2 ret_depth depth_img w3 :
  device (self (heap p)) = Some d ->
  Device_update d (sdk (heap p)) = (inr c, w1) ->
  get_color_image c w1 = (inr (ret_rgb, color_img), w2) ->
  get_transformed_depth_image c w2 = (inr (ret_depth, depth_img), w3) ->
  ret_rgb && ret_depth = false ->
  pass p =
    (Done Continue,
     mkProcess
       (mkHeap (self (heap p)) (default_configuration (heap p)) w3
               (stdout (heap p))
               (calls (heap p) ++ [CallUpdate d; CallGetColorImage c;
                                   CallGetTransformedDepthImage c]))
       (gui p) (gui_calls p)).
Proof.
  intros Hd Hu Hc Ht Hf. unfold pass.
  erewrite sbind_done.
  2:{ apply call_returns. rewrite (capture_loop_run _ d Hd), Hu, Hc, Ht.
      reflexivity. }
  destruct ret_rgb, ret_depth; try discriminate Hf; reflexivity.
Qed.

(** X14.  A frame is shown only when both images succeeded.  When the device
    reports failure for the colour image or for the depth image, the pass
    through the loop body ends right after [capture_loop]: no window is
    updated and [waitKey] is not called, so a key pressed during that pass is
    not read. *)
Theorem incomplete_frame_is_skipped
    (p : Process) (d : Device) (c : Capture) (w1 w2 w3 : W)
    (ret_rgb ret_depth : bool) (color_img depth_img : Image) :
  device (self (heap p)) = Some d ->
  Device_update d (sdk (heap p)) = (inr c, w1) ->
  get_color_image c w1 = (inr (ret_rgb, color_img), w2) ->
  get_transformed_depth_image c w2 = (inr (ret_depth, depth_img), w3) ->
  ret_rgb && ret_depth = false ->
  outcome pass p = Done Continue /\
  gui (left pass p) = gui p /\
  gui_calls (left pass p) = gui_calls p /\
  heap (left pass p) = after capture_loop (heap p).
Proof.
  intros Hd Hu Hc Ht Hf. unfold outcome, left.
  rewrite (pass_skips p d c w1 ret_rgb color_img w2 ret_depth depth_img w3
             Hd Hu Hc Ht Hf).
  cbn. repeat split. unfold after.
  rewrite (capture_loop_run _ d Hd), Hu, Hc, Ht. reflexivity.
Qed.

(** X15.  With a device that never delivers a complete frame the loop cannot
    be left: however many passes are run, it is still running, one update
    per pass, and OpenCV has not been called once, so no key, [q] included,
    is ever read. *)
Theorem loop_cannot_be_left_without_frames (d : Device) (fuel : nat) (p : Process) :
  never_delivers d ->
  device (self (heap p)) = Some d ->
  outcome (while_true fuel) p = Done OutOfFuel /\
  gui (left (while_true fuel) p) = gui p /\
  gui_calls (left (while_true fuel) p) = gui_calls p /\
  updates (calls (heap (left (while_true fuel) p))) =
    (updates (calls (heap p)) + fuel)%nat.
Proof.
  intros Hnever. revert p. induction fuel as [|n IH]; intros p Hd.
  - cbn. repeat split; lia.
  - destruct (Hnever (sdk (heap p)))
      as (c & w1 & b1 & i1 & w2 & b2 & i2 & w3 & Hu & Hc & Ht & Hf).
    unfold outcome, left in *. cbn [while_true].
    rewrite (sbind_done _ _ _ _ _ (pass_skips p d c w1 b1 i1 w2 b2 i2 w3 Hd Hu Hc Ht Hf)).
    match goal with |- context [while_true n ?p1] =>
      destruct (IH p1 Hd) as (Ho & Hg & Hgc & Hup)
    end.
    rewrite Ho, Hg, Hgc, Hup. cbn [gui gui_calls heap calls].
    rewrite updates_app. cbn. repeat split; lia.
Qed.

End ScriptProperties.

Section ScriptRuns.
Context {K : PyKinect} {CV : OpenCV}.

(** Case analysis on everything a pass can meet. *)
Ltac walk :=
  repeat (cbn [fst snd heap gui gui_calls negb orb] in *;
          match goal with
          | |- context [match ?x with _ => _ end] =>
              lazymatch x with
              | context [match _ with _ => _ end] => fail
              | context [if _ then _ else _] => fail
              | _ => destruct x eqn:?
              end
          | |- context [if ?x then _ else _] =>
              lazymatch x with
              | context [match _ with _ => _ end] => fail
              | context [if _ then _ else _] => fail
              | _ => destruct x eqn:?
              end
          end).

(** OpenCV calls aside, a pass is one [capture_loop]. *)
Lemma pass_heap p : heap (left pass p) = after capture_loop (heap p).
Proof.
  unfold left, after, pass, sbind, call, cv, sret.
  destruct (capture_loop (heap p)) as [[[[[b1 i1] b2] i2]|e] h']; [|reflexivity].
  walk; reflexivity.
Qed.

Lemma capture_loop_closes h :
  self (after capture_loop h) = self h /\
  closes (calls (after capture_loop h)) = closes (calls h).
Proof.
  unfold after. destruct (device (self h)) as [d|] eqn:Hd.
  - rewrite (capture_loop_run h d Hd).
    destruct (Device_update d (sdk h)) as [[e|c] w1];
      [cbn [snd self calls]; rewrite closes_app; cbn; split; [reflexivity|lia]|].
    destruct (get_color_image c w1) as [[e|[b1 i1]] w2];
      [cbn [snd self calls]; rewrite closes_app; cbn; split; [reflexivity|lia]|].
    cbn zeta.
    destruct (get_transformed_depth_image c w2) as [[e|[b2 i2]] w3];
      cbn [snd self calls]; rewrite closes_app; cbn; split; (reflexivity || lia).
  - unfold capture_loop. rewrite (bind_raises _ _ h (AttributeError "device") h)
      by now apply getattr_unset.
    auto.
Qed.

Lemma while_true_closes fuel : forall p,
  self (heap (left (while_true fuel) p)) = self (heap p) /\
  closes (calls (heap (left (while_true fuel) p))) = closes (calls (heap p)).
Proof.
  induction fuel as [|n IH]; intros p; [cbn; auto|].
  pose proof (pass_heap p) as Hp.
  destruct (capture_loop_closes (heap p)) as [Hs Hc].
  unfold left in *. cbn [while_true].
  destruct (pass p) as [[[]|e] p1] eqn:Ep; cbn [snd] in Hp.
  - rewrite (sbind_done _ _ _ _ _ Ep).
    destruct (IH p1) as [Hs1 Hc1]. rewrite Hs1, Hc1, Hp. auto.
  - rewrite (sbind_done _ _ _ _ _ Ep). cbn [sret snd]. rewrite Hp. auto.
  - rewrite (sbind_failed _ _ _ _ _ Ep). cbn [snd]. rewrite Hp. auto.
Qed.

(** A pass that breaks has polled the keyboard and read a quit key. *)
Lemma pass_break p p' :
  pass p = (Done Break, p') ->
  exists g key glog,
    waitKey 1 g = (inr key, gui p') /\
    quit_requested key = true /\
    gui_calls p' = glog ++ [GuiWaitKey 1].
Proof.
  unfold pass, sbind, call, cv, sret.
  destruct (capture_loop (heap p)) as [[[[[b1 i1] b2] i2]|e] h']; [|discriminate].
  walk; intros [= <-]; cbn [gui gui_calls];
    do 3 eexists; (split; [eassumption|split; [eassumption|reflexivity]]).
Qed.

(** X16.  The loop is left only through the quit key: whenever it ends by
    [break], the last thing OpenCV was asked is [waitKey(1)], and the key code
    it returned has low byte 113. *)
Theorem loop_is_left_only_by_the_quit_key (fuel : nat) (p : Process) :
  outcome (while_true fuel) p = Done LeftByBreak ->
  exists g key glog,
    waitKey 1 g = (inr key, gui (left (while_true fuel) p)) /\
    key mod 256 = 113 /\
    gui_calls (left (while_true fuel) p) = glog ++ [GuiWaitKey 1].
Proof.
  revert p. induction fuel as [|n IH]; intros p; [discriminate|].
  unfold outcome, left in *. cbn [while_true].
  destruct (pass p) as [[[]|e] p1] eqn:Ep;
    [rewrite (sbind_done _ _ _ _ _ Ep) ..| rewrite (sbind_failed _ _ _ _ _ Ep)];
    cbn [sret fst snd].
  - apply IH.
  - intros _. destruct (pass_break p p1 Ep) as (g & key & glog & Hk & Hq & Hl).
    exists g, key, glog. split; [exact Hk|]. split; [|exact Hl].
    unfold quit_requested in Hq. apply Z.eqb_eq in Hq.
    change 255 with (Z.ones 8) in Hq. rewrite Z.land_ones in Hq by lia.
    exact Hq.
  - discriminate.
Qed.

(** X17.  A complete frame whose depth image is [None]: the colour image is
    shown, the depth window is left alone (no normalisation, no [imshow]),
    the keyboard is polled as usual, and the pass breaks exactly when the key
    is a quit key. *)
Theorem missing_depth_image_is_not_shown
    (p : Process) (d : Device) (c : Capture) (w1 w2 w3 : W)
    (color_img depth_img : Image) (g1 g2 : G) (key : Z) :
  device (self (heap p)) = Some d ->
  Device_update d (sdk (heap p)) = (inr c, w1) ->
  get_color_image c w1 = (inr (true, color_img), w2) ->
  get_transformed_depth_image c w2 = (inr (true, depth_img), w3) ->
  is_None depth_img = true ->
  imshow "Color Image" color_img (gui p) = (inr tt, g1) ->
  waitKey 1 g1 = (inr key, g2) ->
  outcome pass p = Done (if quit_requested key then Break else Continue) /\
  gui_calls (left pass p) =
    gui_calls p ++ [GuiImshow "Color Image" color_img; GuiWaitKey 1] /\
  gui (left pass p) = g2.
Proof.
  intros Hd Hu Hc Ht Hn Hi Hk. unfold outcome, left, pass.
  erewrite sbind_done.
  2:{ apply call_returns. rewrite (capture_loop_run _ d Hd), Hu, Hc, Ht.
      reflexivity. }
  cbn [negb orb]. rewrite Hn. cbn [negb].
  unfold sbind, cv, sret. cbn [gui gui_calls heap]. rewrite Hi.
  cbn [gui gui_calls heap]. rewrite Hk.
  destruct (quit_requested key); cbn; rewrite <- app_assoc; auto.
Qed.

End ScriptRuns.

Section ScriptEnd.
Context {K : PyKinect} {CV : OpenCV}.

(** What is known about the SDK log when the script has ended. *)
Lemma main_closes fuel p o p' :
  main fuel p = (o, p') ->
  match o with
  | Done LeftByBreak =>
      exists d log glog,
        calls (heap p') = log ++ [CallClose d] /\
        closes log = closes (calls (heap p)) /\
        gui_calls p' = glog ++ [GuiDestroyAllWindows]
  | Done OutOfFuel => closes (calls (heap p')) = closes (calls (heap p))
  | Failed e =>
      closes (calls (heap p')) = closes (calls (heap p)) \/
      exists x d log,
        e = WrapperRaised (SdkError x) /\
        calls (heap p') = log ++ [CallClose d] /\
        closes log = closes (calls (heap p))
  end.
Proof.
  unfold main. unfold sbind at 1, call at 1.
  rewrite construction_resolved_run. unfold sdk_call at 1.
  cbn [sdk self default_configuration stdout calls].
  destruct (initialize_libraries (sdk (heap p))) as [[e|[]] w0].
  { intros [= <- <-]. left. cbn [heap calls]. rewrite closes_app. cbn. lia. }
  unfold sbind at 1, call at 1. cbn [heap].
  erewrite start_device_run by reflexivity.
  cbn [sdk self default_configuration stdout calls Config.other_settings].
  destruct (sdk_start_device _ _ _) as [[e|d] w1].
  { intros [= <- <-]. left. cbn [heap calls]. rewrite !closes_app. cbn. lia. }
  unfold sbind at 1, cv at 1. cbn [heap gui gui_calls].
  destruct (namedWindow "Color Image" WINDOW_NORMAL (gui p)) as [[e|[]] g1].
  { intros [= <- <-]. left. cbn [heap calls]. rewrite !closes_app. cbn. lia. }
  unfold sbind at 1, cv at 1. cbn [heap gui gui_calls].
  destruct (namedWindow "Depth Image" WINDOW_NORMAL g1) as [[e|[]] g2].
  { intros [= <- <-]. left. cbn [heap calls]. rewrite !closes_app. cbn. lia. }
  unfold sbind at 1.
  match goal with |- context [while_true fuel ?q] =>
    destruct (while_true_closes fuel q) as [Hself Hcl];
    unfold left in Hself, Hcl;
    destruct (while_true fuel q) as [[[]|e] p5]
  end; cbn [snd heap self calls] in Hself, Hcl;
    rewrite !closes_app in Hcl; cbn in Hcl.
  - unfold sbind at 1, cv at 1.
    destruct (destroyAllWindows (gui p5)) as [[e|[]] g3].
    { intros [= <- <-]. left. cbn [heap]. lia. }
    unfold sbind at 1, call at 1. cbn [heap].
    assert (device (self (heap p5)) = Some d) as Hd by now rewrite Hself.
    rewrite (close_device_run _ d Hd).
    destruct (Device_close d (sdk (heap p5))) as [[e|[]] w2].
    + intros [= <- <-]. right. exists e, d, (calls (heap p5)).
      cbn [heap calls]. repeat split. lia.
    + intros [= <- <-]. exists d, (calls (heap p5)). eexists.
      cbn [heap calls gui_calls]. repeat split. lia.
  - intros [= <- <-]. lia.
  - intros [= <- <-]. left. lia.
Qed.

(** X18.  The script releases the device only on the quit path.  When it
    ends normally, the loop having been left by the quit key, its last SDK
    call is [close()] on the started device, the only close it made, right
    after [destroyAllWindows()].  When the loop is still running, or the
    script has ended with an exception of the SDK or of OpenCV raised before
    that point, [close()] has not been called at all: the device stays
    claimed.  The one other failure is [close()] itself raising. *)
Theorem script_closes_the_device_only_after_quit (fuel : nat) (p : Process) :
  let p' := left (main fuel) p in
  (outcome (main fuel) p = Done LeftByBreak ->
   exists d log glog,
     calls (heap p') = log ++ [CallClose d] /\
     closes log = closes (calls (heap p)) /\
     gui_calls p' = glog ++ [GuiDestroyAllWindows]) /\
  (outcome (main fuel) p = Done OutOfFuel ->
   closes (calls (heap p')) = closes (calls (heap p))) /\
  (forall e, outcome (main fuel) p = Failed e ->
   closes (calls (heap p')) = closes (calls (heap p)) \/
   exists x d log,
     e = WrapperRaised (SdkError x) /\
     calls (heap p') = log ++ [CallClose d] /\
     closes log = closes (calls (heap p))).
Proof.
  cbn zeta. unfold outcome, left.
  destruct (main fuel p) as [o p'] eqn:E. apply main_closes in E. cbn [fst snd].
  repeat split.
  - intros ->. exact E.
  - intros ->. exact E.
  - intros e ->. exact E.
Qed.

End ScriptEnd.

(** * Runs of the further properties *)

Section FurtherRuns.

Lemma set_resolution_selects_added_entry_witness :
  depth_mode_map (self Inputs.with_added_resolution) = Some init_depth_mode_map /\
  resolution_map (self Inputs.with_added_resolution)
    = Some (<["OFF" := K4A_COLOR_RESOLUTION_OFF]> init_resolution_map) /\
  result (K := Mock.sdk) (set_resolution "OFF") Inputs.with_added_resolution
    = Returns tt /\
  resolution (self (after (K := Mock.sdk) (set_resolution "OFF")
                      Inputs.with_added_resolution))
    = Some K4A_COLOR_RESOLUTION_OFF.
Proof.
  split; [reflexivity|]. split; [reflexivity|].
  unfold result, after.
  rewrite (set_resolution_selects_added_entry (K := Mock.sdk)
             Inputs.with_added_resolution "OFF" init_resolution_map
             K4A_COLOR_RESOLUTION_OFF eq_refl).
  split; reflexivity.
Defined.

Lemma set_depth_mode_selects_added_entry_witness :
  resolution_map (self Inputs.with_added_depth_mode) = Some init_resolution_map /\
  depth_mode_map (self Inputs.with_added_depth_mode)
    = Some (<["OFF" := K4A_DEPTH_MODE_OFF]> init_depth_mode_map) /\
  result (K := Mock.sdk) (set_depth_mode "OFF") Inputs.with_added_depth_mode
    = Returns tt /\
  depth_mode (self (after (K := Mock.sdk) (set_depth_mode "OFF")
                      Inputs.with_added_depth_mode))
    = Some K4A_DEPTH_MODE_OFF.
Proof.
  split; [reflexivity|]. split; [reflexivity|].
  unfold result, after.
  rewrite (set_depth_mode_selects_added_entry (K := Mock.sdk)
             Inputs.with_added_depth_mode "OFF" init_depth_mode_map
             K4A_DEPTH_MODE_OFF eq_refl).
  split; reflexivity.
Defined.

Lemma set_resolution_fallback_needs_its_key_witness :
  depth_mode_map (self Inputs.without_default_resolution)
    = Some init_depth_mode_map /\
  resolution_map (self Inputs.without_default_resolution)
    = Some (delete "1080P" init_resolution_map) /\
  delete "1080P" init_resolution_map !! "4K" = None /\
  delete "1080P" init_resolution_map !! "1080P" = None /\
  result (K := Mock.sdk) (set_resolution "4K") Inputs.without_default_resolution
    = Raises (KeyError "1080P").
Proof.
  split; [reflexivity|]. split; [reflexivity|].
  split; [vm_compute; reflexivity|]. split; [vm_compute; reflexivity|].
  unfold result.
  rewrite (set_resolution_fallback_needs_its_key (K := Mock.sdk)
             Inputs.without_default_resolution "4K"
             (delete "1080P" init_resolution_map) eq_refl);
    [reflexivity | vm_compute; reflexivity | vm_compute; reflexivity].
Defined.

Lemma set_depth_mode_fallback_needs_its_key_witness :
  resolution_map (self Inputs.without_default_depth_mode)
    = Some init_resolution_map /\
  depth_mode_map (self Inputs.without_default_depth_mode)
    = Some (delete "NFOV_2X2BINNED" init_depth_mode_map) /\
  delete "NFOV_2X2BINNED" init_depth_mode_map !! "depth" = None /\
  delete "NFOV_2X2BINNED" init_depth_mode_map !! "NFOV_2X2BINNED" = None /\
  result (K := Mock.sdk) (set_depth_mode "depth") Inputs.without_default_depth_mode
    = Raises (KeyError "NFOV_2X2BINNED").
Proof.
  split; [reflexivity|]. split; [reflexivity|].
  split; [vm_compute; reflexivity|]. split; [vm_compute; reflexivity|].
  unfold result.
  rewrite (set_depth_mode_fallback_needs_its_key (K := Mock.sdk)
             Inputs.without_default_depth_mode "depth"
             (delete "NFOV_2X2BINNED" init_depth_mode_map) eq_refl);
    [reflexivity | vm_compute; reflexivity | vm_compute; reflexivity].
Defined.

Lemma selections_last_write_wins_witness :
  resolution_map (self (Mock.fresh [])) = Some init_resolution_map /\
  depth_mode_map (self (Mock.fresh [])) = Some init_depth_mode_map /\
  resolution
    (self (after (K := Mock.sdk)
             (selections [SetResolution "720P"; SetDepthMode "x";
                          SetResolution "3072P"])
             (Mock.fresh [])))
  = Some (resolve_resolution "3072P").
Proof.
  split; [reflexivity|]. split; [reflexivity|].
  apply (selections_last_write_wins (K := Mock.sdk)
           [SetResolution "720P"; SetDepthMode "x"; SetResolution "3072P"]
           (Mock.fresh []) eq_refl eq_refl).
Defined.

Lemma setters_commute_witness :
  resolution_map (self (Mock.fresh [])) = Some init_resolution_map /\
  depth_mode_map (self (Mock.fresh [])) = Some init_depth_mode_map /\
  self (after (K := Mock.sdk)
          (selections [SetResolution "720P"; SetDepthMode "PASSIVE_IR"])
          (Mock.fresh []))
  = self (after (K := Mock.sdk)
            (selections [SetDepthMode "PASSIVE_IR"; SetResolution "720P"])
            (Mock.fresh [])).
Proof.
  split; [reflexivity|]. split; [reflexivity|].
  apply (setters_commute (K := Mock.sdk) (Mock.fresh []) "720P" "PASSIVE_IR"
           eq_refl eq_refl).
Defined.

Lemma session_invariant_witness :
  device (self (run_ops (K := Mock.sdk)
                  [OpStartDevice; OpSetResolution "4K"; OpCloseDevice]
                  (after (new_KinectAzureModule 0 "720P" "PASSIVE_IR")
                         (Mock.boot []))))
  = Some 0 /\
  device_config (self (run_ops (K := Mock.sdk)
                         [OpStartDevice; OpSetResolution "4K"; OpCloseDevice]
                         (after (new_KinectAzureModule 0 "720P" "PASSIVE_IR")
                                (Mock.boot []))))
  = Some default_configuration_ref.
Proof.
  split; [vm_compute; reflexivity|].
  apply (session_invariant (K := Mock.sdk) (Mock.boot []) 0 "720P" "PASSIVE_IR"
           [OpStartDevice; OpSetResolution "4K"; OpCloseDevice]) with (dev := 0).
  vm_compute. reflexivity.
Defined.

Lemma param_stops_at_first_failure_witness :
  device (self (Faulty.started (Faulty.only Faulty.Matrix) (true, true))) = Some 0 /\
  result param (Faulty.started (Faulty.only Faulty.Matrix) (true, true))
  = Raises (SdkError (K := Faulty.sdk (Faulty.only Faulty.Matrix) (true, true))
              Faulty.Matrix).
Proof.
  split; [reflexivity|].
  destruct (param_stops_at_first_failure
              (Faulty.started (Faulty.only Faulty.Matrix) (true, true)) 0 eq_refl)
    as [Hfirst _].
  unfold result. rewrite (Hfirst Faulty.Matrix tt eq_refl). reflexivity.
Defined.

Lemma capture_loop_stops_at_first_failure_witness :
  device (self (Faulty.started (Faulty.only Faulty.Color) (true, true))) = Some 0 /\
  calls (after capture_loop (Faulty.started (Faulty.only Faulty.Color) (true, true)))
  = calls (Faulty.started (Faulty.only Faulty.Color) (true, true)) ++
    [CallUpdate (K := Faulty.sdk (Faulty.only Faulty.Color) (true, true)) 0;
     CallGetColorImage (K := Faulty.sdk (Faulty.only Faulty.Color) (true, true)) tt].
Proof.
  split; [reflexivity|].
  destruct (capture_loop_stops_at_first_failure
              (Faulty.started (Faulty.only Faulty.Color) (true, true)) 0 eq_refl)
    as (_ & Hcolor & _).
  unfold after. rewrite (Hcolor tt tt Faulty.Color tt eq_refl eq_refl).
  reflexivity.
Defined.

Lemma close_device_is_forwarded_every_time_witness :
  device (self (Mock.started [])) = Some 0 /\
  close_device (Mock.fresh []) = (Raises (AttributeError "device"), Mock.fresh []) /\
  calls (after close_device (after close_device (Mock.started [])))
  = calls (Mock.started []) ++
    [CallClose (K := Mock.sdk) 0; CallClose (K := Mock.sdk) 0].
Proof.
  split; [reflexivity|]. split.
  - apply (close_device_is_forwarded_every_time (K := Mock.sdk) (Mock.fresh [])).
    reflexivity.
  - apply (close_device_is_forwarded_every_time (K := Mock.sdk) (Mock.started []) ).
    reflexivity.
Defined.

Lemma param_after_close_is_forwarded_witness :
  device (self (Mock.started [])) = Some 0 /\
  device (self (after close_device (Mock.started []))) = Some 0 /\
  result param (after close_device (Mock.started []))
  = Returns (K := Mock.sdk)
      ([[600; 0; 320]; [0; 600; 240]; [0; 0; 1]], [1; 2; 3; 4; 5; 6; 7; 8]).
Proof.
  split; [reflexivity|].
  destruct (param_after_close_is_forwarded (K := Mock.sdk) (Mock.started []) 0
              eq_refl) as (Hdev & _ & Hret).
  split; [exact Hdev|].
  apply (Hret _ (Mock.mkWorld true false []) _ (Mock.mkWorld true false []));
    reflexivity.
Defined.

Lemma sessions_share_the_configuration_record_witness :
  device_config (self (Mock.started [])) = Some default_configuration_ref /\
  result read_device_config
    (with_self (self (Mock.started []))
       (after start_device (with_self Inputs.second_session (Mock.started []))))
  = Returns (K := Mock.sdk)
      (Config.mk K4A_COLOR_RESOLUTION_3072P K4A_DEPTH_MODE_PASSIVE_IR tt).
Proof.
  split; [reflexivity|].
  apply (sessions_share_the_configuration_record (K := Mock.sdk)
           (Mock.started []) Inputs.second_session
           K4A_COLOR_RESOLUTION_3072P K4A_DEPTH_MODE_PASSIVE_IR 1);
    reflexivity.
Defined.

Lemma quit_key_is_the_low_byte_witness :
  (113 + 256 * 4) mod 256 = 113 /\
  quit_requested (113 + 256 * 4) = true /\ quit_requested (-1) = false.
Proof.
  split; [reflexivity|]. split; [|reflexivity].
  apply (quit_key_is_the_low_byte (113 + 256 * 4)). reflexivity.
Defined.

Lemma incomplete_frame_is_skipped_witness :
  device (self (heap (Inputs.looping [(false, true)] [113]))) = Some 0 /\
  outcome pass (Inputs.looping [(false, true)] [113]) = Done Continue /\
  gui (left pass (Inputs.looping [(false, true)] [113])) = [113].
Proof.
  split; [reflexivity|].
  destruct (incomplete_frame_is_skipped (K := Mock.sdk)
              (CV := Keyboard.cv2 (fun _ => false))
              (Inputs.looping [(false, true)] [113]) 0 (false, true)
              (Mock.mkWorld true true []) (Mock.mkWorld true true [])
              (Mock.mkWorld true true []) false true None (Some 1000)
              eq_refl eq_refl eq_refl eq_refl eq_refl)
    as (Ho & Hg & _).
  split; [exact Ho | exact Hg].
Defined.

Lemma dark_camera_never_delivers :
  never_delivers (K := Faulty.sdk Faulty.none (false, true)) 0.
Proof.
  intros w. exists tt, tt, false, 1, tt, true, 2, tt.
  destruct w. repeat (split; [reflexivity|]). reflexivity.
Qed.

Lemma loop_cannot_be_left_without_frames_witness :
  never_delivers (K := Faulty.sdk Faulty.none (false, true)) 0 /\
  device (self (heap (Inputs.dark [113; 113]))) = Some 0 /\
  outcome (while_true 5) (Inputs.dark [113; 113]) = Done OutOfFuel /\
  gui (left (while_true 5) (Inputs.dark [113; 113])) = [113; 113].
Proof.
  split; [exact dark_camera_never_delivers|]. split; [reflexivity|].
  destruct (loop_cannot_be_left_without_frames
              (K := Faulty.sdk Faulty.none (false, true))
              (CV := Keyboard.cv2 (fun _ => false)) 0 5 (Inputs.dark [113; 113])
              dark_camera_never_delivers eq_refl) as (Ho & Hg & _).
  split; [exact Ho | exact Hg].
Defined.

Lemma loop_is_left_only_by_the_quit_key_witness :
  outcome (while_true 4) (Inputs.looping [(true, true); (true, true)] [-1; 113; 7])
    = Done LeftByBreak /\
  exists g key glog,
    waitKey 1 g =
      (inr key,
       gui (left (while_true 4)
              (Inputs.looping [(true, true); (true, true)] [-1; 113; 7]))) /\
    key mod 256 = 113 /\
    gui_calls (left (while_true 4)
                 (Inputs.looping [(true, true); (true, true)] [-1; 113; 7]))
      = glog ++ [GuiWaitKey 1].
Proof.
  split; [vm_compute; reflexivity|].
  apply (loop_is_left_only_by_the_quit_key 4
           (Inputs.looping [(true, true); (true, true)] [-1; 113; 7])).
  vm_compute. reflexivity.
Defined.

Lemma missing_depth_image_is_not_shown_witness :
  device (self (heap (Inputs.looping_without_depth [(true, true)] [113]))) = Some 0 /\
  gui_calls (left pass (Inputs.looping_without_depth [(true, true)] [113]))
  = [GuiImshow (K := Mock.sdk) "Color Image" (Some 255);
     GuiWaitKey (K := Mock.sdk) 1].
Proof.
  split; [reflexivity|].
  apply (missing_depth_image_is_not_shown (K := Mock.sdk)
           (CV := Keyboard.cv2 (fun _ => true))
           (Inputs.looping_without_depth [(true, true)] [113]) 0 (true, true)
           (Mock.mkWorld true true []) (Mock.mkWorld true true [])
           (Mock.mkWorld true true []) (Some 255) (Some 1000) [113] [] 113);
    reflexivity.
Defined.

Lemma script_closes_the_device_only_after_quit_witness :
  outcome (main 3) (Inputs.booting [(true, true)] [113]) = Done LeftByBreak /\
  exists d log glog,
    calls (heap (left (main 3) (Inputs.booting [(true, true)] [113])))
      = log ++ [CallClose d] /\
    closes log = closes (calls (heap (Inputs.booting [(true, true)] [113]))) /\
    gui_calls (left (main 3) (Inputs.booting [(true, true)] [113]))
      = glog ++ [GuiDestroyAllWindows].
Proof.
  split; [vm_compute; reflexivity|].
  apply (script_closes_the_device_only_after_quit 3
           (Inputs.booting [(true, true)] [113])).
  vm_compute. reflexivity.
Defined.

(** The script on a camera that delivers one frame and then times out: the
    exception ends the script and the device is never closed. *)
Example script_fails_without_closing :
  outcome (main 3) (Inputs.booting [(true, true)] [-1])
    = Failed (WrapperRaised (SdkError (K := Mock.sdk) Mock.Timeout)) /\
  closes (calls (heap (left (main 3) (Inputs.booting [(true, true)] [-1])))) = 0%nat.
Proof. split; vm_compute; reflexivity. Qed.

End FurtherRuns.
